(** * MTL_Tutorial.ipynb: the notebook's cells over models of pandas, scikit-learn and Keras

  The notebook is a sequence of code cells that share one global namespace.
  Each cell is embedded as a function on that namespace in a monad that
  carries Python exceptions and the trace of library calls and displayed
  outputs.  Third-party numerics (random permutations, tf-idf weights, ANOVA
  scores, network weights, training) are operations of a [Backend]; the
  structure around them (frames, slices, masks, shapes, layers) is written
  out. *)

From Stdlib Require Import String Ascii.
From Stdlib Require Import List ZArith QArith Bool Lia Permutation Arith Sorted.
Import ListNotations.
Close Scope Q_scope.
Open Scope string_scope.
Open Scope list_scope.
Open Scope nat_scope.

Set Implicit Arguments.

(* ------------------------------------------------------------------ *)
(** * Python: exceptions, results, slices *)

Module Python.

Inductive exn : Type :=
| FileNotFoundError (path : string)
| NameError (name : string)
| IndexError
| ValueError (msg : string)
| RuntimeError (msg : string).

Inductive result (A : Type) : Type :=
| Return (a : A)
| Raise (e : exn).
Arguments Return {A} a.
Arguments Raise {A} e.

Definition and_then {A B : Type} (r : result A) (f : A -> result B) : result B :=
match r with
| Return a => f a
| Raise e => Raise e
end.

(** [l[start:stop]] with step 1: negative bounds count from the end, every
    bound is clipped to the length, an empty range gives the empty list. *)
Definition slice_bound (n : Z) (dflt : Z) (b : option Z) : Z :=
  match b with
  | None => dflt
  | Some i => if (i <? 0)%Z then Z.max 0 (i + n) else Z.min i n
  end.

Definition slice {A : Type} (start stop : option Z) (l : list A) : list A :=
  let n := Z.of_nat (length l) in
  let lo := slice_bound n 0%Z start in
  let hi := slice_bound n n stop in
  firstn (Z.to_nat (hi - lo)) (skipn (Z.to_nat lo) l).

End Python.
Export Python.

(* ------------------------------------------------------------------ *)
(** * numpy.random: the generator interface *)

(** [RandomState(seed)] and [permutation(n)]; the Mersenne-Twister arithmetic
  is the backend's. *)
Class NumpyRandom : Type := {
RandomState : Type;
RandomState_seed : Z -> RandomState;
permutation : RandomState -> nat -> list nat
}.

(* ------------------------------------------------------------------ *)
(** * pandas: a two-column frame, its index, and the operations the notebook uses *)

Module pandas.

(** One row of the frame built with [columns=['sentence', 'label']]; [None]
    is a missing cell (NaN / None). *)
Record row : Type := {
  idx : nat;
  sentence : option string;
  label : option Z
}.

Definition DataFrame := list row.
Definition Series (A : Type) := list (nat * option A).

Definition index (df : DataFrame) : list nat := map idx df.
Definition Series_index {A} (s : Series A) : list nat := map fst s.
Definition values {A} (s : Series A) : list (option A) := map snd s.

Definition set_idx (ir : nat * row) : row :=
  {| idx := fst ir; sentence := sentence (snd ir); label := label (snd ir) |}.

(** [pd.DataFrame(records, columns=['sentence', 'label'])]: a fresh RangeIndex. *)
Definition from_records (records : list (option string * option Z)) : DataFrame :=
  map (fun ir => {| idx := fst ir; sentence := fst (snd ir); label := snd (snd ir) |})
      (combine (seq 0 (length records)) records).

Definition notna (r : row) : bool :=
  match sentence r, label r with
  | Some _, Some _ => true
  | _, _ => false
  end.

(** [df.dropna()]: rows with any missing cell go, index labels stay. *)
Definition dropna (df : DataFrame) : DataFrame := filter notna df.

(** [df.take(locs)]: positional; a position out of range raises. *)
Fixpoint take (locs : list nat) (df : DataFrame) : result DataFrame :=
  match locs with
  | [] => Return []
  | i :: locs' =>
      match nth_error df i with
      | None => Raise IndexError
      | Some r =>
          match take locs' df with
          | Return rs => Return (r :: rs)
          | Raise e => Raise e
          end
      end
  end.

(** [com.random_state(random_state)]: an int seeds a fresh generator, [None]
    is the module-level generator of numpy. *)
Definition random_state `{NumpyRandom} (state : option Z) (np_random : RandomState)
  : RandomState :=
  match state with
  | Some s => RandomState_seed s
  | None => np_random
  end.

(** [df.sample(n, random_state=...)] without replacement:
    [rs.choice(len, size=n, replace=False)] is [rs.permutation(len)[:n]]. *)
Definition sample `{NumpyRandom} (n : nat) (state : option Z)
           (np_random : RandomState) (df : DataFrame) : result DataFrame :=
  if length df <? n
  then Raise (ValueError "Cannot take a larger sample than population when 'replace=False'")
  else take (firstn n (permutation (random_state state np_random) (length df))) df.

(** [df.sample(frac=1, ...)]: [n = round(frac * len(df))]. *)
Definition sample_frac1 `{NumpyRandom} (state : option Z)
           (np_random : RandomState) (df : DataFrame) : result DataFrame :=
  sample (length df) state np_random df.

(** [df.reset_index(drop=True)] *)
Definition reset_index (df : DataFrame) : DataFrame :=
  map set_idx (combine (seq 0 (length df)) df).

(** [series != v], elementwise; a missing cell differs from everything. *)
Definition ne (c : option Z) (v : Z) : bool :=
  match c with
  | Some z => negb (z =? v)%Z
  | None => true
  end.

(** [df[mask]] for the mask [df.label != v] *)
Definition where_label_ne (v : Z) (df : DataFrame) : DataFrame :=
  filter (fun r => ne (label r) v) df.

(** [df[a:b]]: an integer slice on a frame is positional. *)
Definition getitem_slice (start stop : option Z) (df : DataFrame) : DataFrame :=
  slice start stop df.

(** [df['sentence']] and [df['label']] *)
Definition col_sentence (df : DataFrame) : Series string :=
  map (fun r => (idx r, sentence r)) df.
Definition col_label (df : DataFrame) : Series Z :=
  map (fun r => (idx r, label r)) df.

End pandas.

(* ------------------------------------------------------------------ *)
(** * numpy / scipy.sparse: two-dimensional arrays with an explicit shape *)

Record matrix : Type := {
  nrows : nat;
  ncols : nat;
  entry : nat -> nat -> Q
}.

Definition shape (X : matrix) : nat * nat := (nrows X, ncols X).

(** [X[:, cols]] *)
Definition select_columns (cols : list nat) (X : matrix) : matrix :=
  {| nrows := nrows X;
     ncols := length cols;
     entry := fun i j => entry X i (nth j cols 0) |}.

(** [X.toarray()]: the dense array of a sparse matrix, same shape and entries. *)
Definition toarray (X : matrix) : matrix := X.

(* ------------------------------------------------------------------ *)
(** * scikit-learn: TfidfVectorizer and SelectKBest *)

Module sklearn.

(** The keyword arguments of the vectorizer.  The dict literal of the notebook
    gives ['dtype'] twice; the later value, [np.float64], is the one kept. *)
Record tfidf_kwargs : Type := {
  ngram_range : nat * nat;
  dtype : string;
  strip_accents : string;
  decode_error : string;
  stop_words : list string;
  analyzer : string;
  min_df : nat;
  max_df : Q
}.

(** What fitting a vectorizer learns, as far as shapes go: the vocabulary size
    and the weight of each feature in a document. *)
Record TfidfVectorizer : Type := {
  n_features : nat;
  tfidf : option string -> nat -> Q
}.

(** [tfvect.transform(docs)]: one row per document, one column per vocabulary entry. *)
Definition TfidfVectorizer_transform (v : TfidfVectorizer) (docs : list (option string))
  : matrix :=
  {| nrows := length docs;
     ncols := n_features v;
     entry := fun i j => tfidf v (nth i docs None) j |}.

(** A fitted selector: [get_support()] as a boolean mask over the input columns. *)
Record SelectKBest : Type := {
  k : Z;
  support_mask : list bool
}.

(** [mask = zeros(n); mask[idxs] = 1] *)
Definition mask_of (n : nat) (idxs : list nat) : list bool :=
  map (fun j => existsb (Nat.eqb j) idxs) (seq 0 n).

(** [np.where(mask)]: the positions set in the mask, ascending. *)
Fixpoint support_from (j : nat) (mask : list bool) : list nat :=
  match mask with
  | [] => []
  | b :: mask' => if b then j :: support_from (S j) mask' else support_from (S j) mask'
  end.

Definition get_support (s : SelectKBest) : list nat := support_from 0 (support_mask s).

(** [SelectKBest(score_func, k=k).fit(X, y)], given the stable argsort of the
    scores: [_check_params] rejects a [k] outside [0 .. n_features]; the mask
    marks [argsort(scores)[-k:]], and nothing when [k = 0]. *)
Definition SelectKBest_fit (argsort : matrix -> list (option Z) -> result (list nat))
           (k : Z) (X : matrix) (y : list (option Z)) : result SelectKBest :=
  if ((0 <=? k)%Z && (k <=? Z.of_nat (ncols X))%Z)%bool
  then match argsort X y with
       | Return order =>
           Return {| k := k;
                     support_mask :=
                       if (k =? 0)%Z then mask_of (ncols X) []
                       else mask_of (ncols X) (slice (Some (- k)%Z) None order) |}
       | Raise e => Raise e
       end
  else Raise (ValueError "k should be >=0, <= n_features; use k='all' to return all features").

(** [selector.transform(X)]: the input must have the width seen during [fit]. *)
Definition SelectKBest_transform (s : SelectKBest) (X : matrix) : result matrix :=
  if ncols X =? length (support_mask s)
  then Return (select_columns (get_support s) X)
  else Raise (ValueError "X has a different shape than during fitting.").

End sklearn.

(* ------------------------------------------------------------------ *)
(** * Keras: layers, symbolic tensors and their shapes, compile arguments *)

Module keras.

Inductive activation : Type := relu | softmax.

Inductive layer : Type :=
| Dense (units : nat) (act : activation)
| Dropout (rate : Q)
| Embedding (input_dim output_dim : nat) (embeddings_initializer : matrix) (trainable : bool)
| Bidirectional_LSTM (units : nat) (return_sequences : bool) (recurrent_dropout : Q).

(** A shape without the batch axis; [None] is an axis of unknown size. *)
Definition tensor_shape := list (option nat).

(** The symbolic tensor the functional API threads from [keras.Input] through
    the layer calls: where it started, the layers applied so far (in order),
    and its current shape. *)
Record KerasTensor : Type := {
  input_shape : tensor_shape;
  input_dtype : string;
  applied : list layer;
  tshape : tensor_shape
}.

(** [keras.Input(shape=..., dtype=...)] *)
Definition Input (shape : tensor_shape) (dtype : string) : KerasTensor :=
  {| input_shape := shape; input_dtype := dtype; applied := []; tshape := shape |}.

Definition compute_output_shape (l : layer) (s : tensor_shape) : result tensor_shape :=
  match l with
  | Dense u _ =>
      match rev s with
      | Some _ :: r => Return (rev (Some u :: r))
      | _ => Raise (ValueError "The last dimension of the inputs to Dense should be defined.")
      end
  | Dropout _ => Return s
  | Embedding _ out _ _ => Return (s ++ [Some out])
  | Bidirectional_LSTM u rs _ =>
      match s with
      | [t; Some _] => Return (if rs then [t; Some (2 * u)] else [Some (2 * u)])
      | _ => Raise (ValueError "Input 0 of layer lstm is incompatible with the layer")
      end
  end.

(** [layer(tensor)] *)
Definition apply (l : layer) (t : KerasTensor) : result KerasTensor :=
  match compute_output_shape l (tshape t) with
  | Return s =>
      Return {| input_shape := input_shape t; input_dtype := input_dtype t;
                applied := applied t ++ [l]; tshape := s |}
  | Raise e => Raise e
  end.

(** [x = l1(inputs); x = l2(x); ...]: the layers called one after the other. *)
Definition chain (inputs : KerasTensor) (ls : list layer) : result KerasTensor :=
  fold_left (fun t l => and_then t (apply l)) ls (Return inputs).

Inductive architecture : Type :=
| Functional (inputs : tensor_shape) (layers : list layer) (outputs : tensor_shape)
| TFBertForSequenceClassification (pretrained_model_name : string).

(** [keras.Model(inputs, outputs)]: the graph from the input to [outputs]. *)
Definition Model_of (inputs outputs : KerasTensor) : architecture :=
  Functional (input_shape outputs) (applied outputs) (tshape outputs).

(** The number of classes a network predicts: the width of its output. *)
Definition output_classes (a : architecture) : option nat :=
  match a with
  | Functional _ _ [Some n] => Some n
  | _ => None
  end.

(** The final layer of a functional model. *)
Definition head (a : architecture) : option layer :=
  match a with
  | Functional _ ls _ => last (map Some ls) None
  | TFBertForSequenceClassification _ => None
  end.

Record optimizer : Type := Adam {
  learning_rate : Q;
  epsilon : option Q
}.

Inductive loss_fn : Type :=
| sparse_categorical_crossentropy (from_logits : bool).

Inductive metric : Type :=
| accuracy
| SparseCategoricalAccuracy (name : string).

Record compile_kwargs : Type := {
  compile_optimizer : optimizer;
  compile_loss : loss_fn;
  compile_metrics : list metric
}.

(** The data a call to [fit] trains or validates on: arrays [(x, y)] or a
    [tf.data.Dataset]. *)
Inductive fit_data (Dataset : Type) : Type :=
| arrays (x : matrix) (y : list (option Z))
| dataset (d : Dataset).
Arguments arrays {Dataset} x y.
Arguments dataset {Dataset} d.

End keras.

(* ------------------------------------------------------------------ *)
(** * The backend: everything the notebook calls and does not define *)

(** [mtl_helpers] (imported with [*], its source is not part of the notebook),
    and the numeric parts of scikit-learn, Keras, tf.data and transformers.
    Every operation is a function of its arguments: it may raise, it does not
    modify what it is given. *)
Class Backend : Type := {
  backend_random :: NumpyRandom;
  (* mtl_helpers *)
  read_finphrase : string -> result (list (option string * option Z));
  TextVectorization : Type;
  create_vectorizer_and_embeddings :
    pandas.Series string -> result (TextVectorization * matrix);
  Tokenizer : Type;
  Dataset : Type;
  convert_data : Tokenizer -> pandas.Series string -> pandas.Series Z -> result Dataset;
  (* scikit-learn *)
  TfidfVectorizer_fit :
    sklearn.tfidf_kwargs -> list (option string) -> result sklearn.TfidfVectorizer;
  f_classif_argsort : matrix -> list (option Z) -> result (list nat);
  (* keras.layers.TextVectorization, tf.data *)
  TextVectorization_call : TextVectorization -> list (list (option string)) -> result matrix;
  get_vocabulary : TextVectorization -> list string;
  Dataset_batch : Dataset -> Z -> Dataset;
  (* training *)
  Weights : Type;
  History : Type;
  initial_weights : keras.architecture -> Weights;
  train : keras.architecture -> keras.compile_kwargs -> Weights ->
          keras.fit_data Dataset -> option Z -> Z -> option (keras.fit_data Dataset) ->
          result (Weights * History);
  (* transformers *)
  BertTokenizer_from_pretrained : string -> result Tokenizer;
  TFBertForSequenceClassification_from_pretrained : string -> result Weights
}.

(** A Keras model object: its graph, its current weights, and what [compile] set. *)
Record Model `{Backend} : Type := {
  architecture : keras.architecture;
  weights : Weights;
  compiled : option keras.compile_kwargs
}.

(** What a cell writes to its output area. *)
Inductive output `{Backend} : Type :=
| out_frame (df : pandas.DataFrame)
| out_history (h : History).

(** The observable trace of a cell. *)
Inductive event `{Backend} : Type :=
| Called (f : string)
| Fit (m : Model) (x : keras.fit_data Dataset) (batch_size : option Z) (epochs : Z)
      (validation_data : option (keras.fit_data Dataset))
| Raised (e : exn)
| Displayed (o : output).

(** ** The cell monad: a trace and either a value or the exception that ended the cell *)

Definition M `{Backend} (A : Type) : Type := list event * result A.

Definition ret `{Backend} {A} (a : A) : M A := ([], Return a).

Definition bind `{Backend} {A B} (m : M A) (f : A -> M B) : M B :=
  match m with
  | (t, Return a) => let (t', r) := f a in (t ++ t', r)
  | (t, Raise e) => (t, Raise e)
  end.

Declare Scope cell_scope.
Delimit Scope cell_scope with cell.
Notation "x <- m ;; f" := (bind m (fun x => f))
  (at level 100, m at next level, right associativity) : cell_scope.
Notation "' p <- m ;; f" := (bind m (fun p => f))
  (at level 100, p pattern, m at next level, right associativity) : cell_scope.
Notation "m ;;; f" := (bind m (fun _ => f))
  (at level 100, right associativity) : cell_scope.
Open Scope cell_scope.

Definition raise `{Backend} {A} (e : exn) : M A := ([Raised e], Raise e).

(** A call into a library: the call is recorded, then its outcome. *)
Definition call `{Backend} {A} (f : string) (r : result A) : M A :=
  match r with
  | Return a => ([Called f], Return a)
  | Raise e => ([Called f; Raised e], Raise e)
  end.

(** A shape error while building a graph is raised by the layer call itself. *)
Definition lift `{Backend} {A} (r : result A) : M A :=
  match r with
  | Return a => ret a
  | Raise e => raise e
  end.

Definition display `{Backend} (o : output) : M unit := ([Displayed o], Return tt).

(** Reading a global name: unbound names raise [NameError]. *)
Definition lookup `{Backend} {A} (name : string) (v : option A) : M A :=
  match v with
  | Some a => ret a
  | None => raise (NameError name)
  end.

Definition is_displayed `{Backend} (e : event) : bool :=
  match e with
  | Displayed _ => true
  | _ => false
  end.

(** [%%capture]: what the cell would write to its output area is held back.
    Only this side of the magic is modelled; the outcome of the cell is the
    outcome of its code. *)
Definition capture `{Backend} {A} (m : M A) : M A :=
  (filter (fun e => negb (is_displayed e)) (fst m), snd m).

(** [with tf.device(name): body]: placement does not change what [body] computes. *)
Definition with_device `{Backend} {A} (name : string) (body : M A) : M A := body.

Definition trace `{Backend} {A} (m : M A) : list event := fst m.
Definition outcome `{Backend} {A} (m : M A) : result A := snd m.

(** [model.compile(optimizer=..., loss=..., metrics=[...])] *)
Definition Model_compile `{Backend} (m : Model) (o : keras.optimizer) (l : keras.loss_fn)
           (ms : list keras.metric) : Model :=
  {| architecture := architecture m;
     weights := weights m;
     compiled := Some {| keras.compile_optimizer := o;
                         keras.compile_loss := l;
                         keras.compile_metrics := ms |} |}.

(** [model.fit(x, ..., batch_size=..., epochs=..., validation_data=...)]: the
    weights of the model object are replaced by the trained ones, the per-epoch
    metrics the training computed are what is printed. *)
Definition Model_fit `{Backend} (m : Model) (x : keras.fit_data Dataset)
           (batch_size : option Z) (epochs : Z)
           (validation_data : option (keras.fit_data Dataset)) : M Model :=
  match compiled m with
  | None => raise (RuntimeError "You must compile your model before training/testing.")
  | Some c =>
      (([Fit m x batch_size epochs validation_data], Return tt) : M unit) ;;;
      match train (architecture m) c (weights m) x batch_size epochs validation_data with
      | Return (w, h) =>
          display (out_history h) ;;;
          ret {| architecture := architecture m; weights := w; compiled := Some c |}
      | Raise e => raise e
      end
  end.

(* ------------------------------------------------------------------ *)
(** * The notebook's global namespace *)

(** The names a cell binds and a later cell (or a claim) reads.  Names bound
    and read inside a single cell ([TOP_K], [tfvect], [selector], [inputs],
    [x], [optimizer], ...) are local [let]s of that cell.  [np_random] is
    numpy's module-level generator, part of the kernel's state. *)
Record namespace `{Backend} : Type := {
  np_random : RandomState;
  data : option pandas.DataFrame;
  x_train : option (pandas.Series string);
  y_train : option (pandas.Series Z);
  x_val : option (pandas.Series string);
  y_val : option (pandas.Series Z);
  x_train_tf : option matrix;
  x_val_tf : option matrix;
  x_train_vectorized : option matrix;
  x_val_vectorized : option matrix;
  y_train_vectorized : option (list (option Z));
  y_val_vectorized : option (list (option Z));
  BATCH_SIZE : option Z;
  bert_tokenizer : option Tokenizer;
  train_bert : option Dataset;
  val_bert : option Dataset;
  model : option Model
}.

(** A kernel that has run nothing yet. *)
Definition fresh_kernel `{Backend} (g : RandomState) : namespace :=
  {| np_random := g; data := None;
     x_train := None; y_train := None; x_val := None; y_val := None;
     x_train_tf := None; x_val_tf := None;
     x_train_vectorized := None; x_val_vectorized := None;
     y_train_vectorized := None; y_val_vectorized := None;
     BATCH_SIZE := None; bert_tokenizer := None; train_bert := None; val_bert := None;
     model := None |}.

Definition bind_data `{Backend} (ns : namespace) (d : pandas.DataFrame) : namespace :=
  {| np_random := np_random ns; data := Some d;
     x_train := x_train ns; y_train := y_train ns; x_val := x_val ns; y_val := y_val ns;
     x_train_tf := x_train_tf ns; x_val_tf := x_val_tf ns;
     x_train_vectorized := x_train_vectorized ns; x_val_vectorized := x_val_vectorized ns;
     y_train_vectorized := y_train_vectorized ns; y_val_vectorized := y_val_vectorized ns;
     BATCH_SIZE := BATCH_SIZE ns; bert_tokenizer := bert_tokenizer ns;
     train_bert := train_bert ns; val_bert := val_bert ns;
     model := model ns |}.

Definition bind_split `{Backend} (ns : namespace)
           (xt : pandas.Series string) (yt : pandas.Series Z)
           (xv : pandas.Series string) (yv : pandas.Series Z) : namespace :=
  {| np_random := np_random ns; data := data ns;
     x_train := Some xt; y_train := Some yt; x_val := Some xv; y_val := Some yv;
     x_train_tf := x_train_tf ns; x_val_tf := x_val_tf ns;
     x_train_vectorized := x_train_vectorized ns; x_val_vectorized := x_val_vectorized ns;
     y_train_vectorized := y_train_vectorized ns; y_val_vectorized := y_val_vectorized ns;
     BATCH_SIZE := BATCH_SIZE ns; bert_tokenizer := bert_tokenizer ns;
     train_bert := train_bert ns; val_bert := val_bert ns;
     model := model ns |}.

Definition bind_tf `{Backend} (ns : namespace) (xt xv : matrix) : namespace :=
  {| np_random := np_random ns; data := data ns;
     x_train := x_train ns; y_train := y_train ns; x_val := x_val ns; y_val := y_val ns;
     x_train_tf := Some xt; x_val_tf := Some xv;
     x_train_vectorized := x_train_vectorized ns; x_val_vectorized := x_val_vectorized ns;
     y_train_vectorized := y_train_vectorized ns; y_val_vectorized := y_val_vectorized ns;
     BATCH_SIZE := BATCH_SIZE ns; bert_tokenizer := bert_tokenizer ns;
     train_bert := train_bert ns; val_bert := val_bert ns;
     model := model ns |}.

Definition bind_vectorized `{Backend} (ns : namespace) (xt xv : matrix)
           (yt yv : list (option Z)) : namespace :=
  {| np_random := np_random ns; data := data ns;
     x_train := x_train ns; y_train := y_train ns; x_val := x_val ns; y_val := y_val ns;
     x_train_tf := x_train_tf ns; x_val_tf := x_val_tf ns;
     x_train_vectorized := Some xt; x_val_vectorized := Some xv;
     y_train_vectorized := Some yt; y_val_vectorized := Some yv;
     BATCH_SIZE := BATCH_SIZE ns; bert_tokenizer := bert_tokenizer ns;
     train_bert := train_bert ns; val_bert := val_bert ns;
     model := model ns |}.

Definition bind_bert `{Backend} (ns : namespace) (b : Z) (tok : Tokenizer)
           (tr va : Dataset) : namespace :=
  {| np_random := np_random ns; data := data ns;
     x_train := x_train ns; y_train := y_train ns; x_val := x_val ns; y_val := y_val ns;
     x_train_tf := x_train_tf ns; x_val_tf := x_val_tf ns;
     x_train_vectorized := x_train_vectorized ns; x_val_vectorized := x_val_vectorized ns;
     y_train_vectorized := y_train_vectorized ns; y_val_vectorized := y_val_vectorized ns;
     BATCH_SIZE := Some b; bert_tokenizer := Some tok;
     train_bert := Some tr; val_bert := Some va;
     model := model ns |}.

Definition bind_model `{Backend} (ns : namespace) (m : Model) : namespace :=
  {| np_random := np_random ns; data := data ns;
     x_train := x_train ns; y_train := y_train ns; x_val := x_val ns; y_val := y_val ns;
     x_train_tf := x_train_tf ns; x_val_tf := x_val_tf ns;
     x_train_vectorized := x_train_vectorized ns; x_val_vectorized := x_val_vectorized ns;
     y_train_vectorized := y_train_vectorized ns; y_val_vectorized := y_val_vectorized ns;
     BATCH_SIZE := BATCH_SIZE ns; bert_tokenizer := bert_tokenizer ns;
     train_bert := train_bert ns; val_bert := val_bert ns;
     model := Some m |}.

(* ------------------------------------------------------------------ *)
(** * The code cells *)

Module MTL_Tutorial.

(** ** Setup *)

(** <<
data = read_finphrase('data/Sentences_66Agree.txt')
data = pd.DataFrame(data, columns=['sentence', 'label'])
data = data.dropna()
data = data.sample(frac=1, random_state = 42).reset_index(drop=True)
>> *)
Definition cell_4 `{Backend} (ns : namespace) : M namespace :=
  records <- call "read_finphrase" (read_finphrase "data/Sentences_66Agree.txt") ;;
  let data := pandas.from_records records in
  let data := pandas.dropna data in
  shuffled <- call "DataFrame.sample"
                   (pandas.sample_frac1 (Some 42%Z) (np_random ns) data) ;;
  let data := pandas.reset_index shuffled in
  ret (bind_data ns data).

(** <<
# 1 is "positive", 0 is "negative", 2 is "neutral"
data.sample(6, random_state = 32)
>> *)
Definition cell_5 `{Backend} (ns : namespace) : M namespace :=
  data <- lookup "data" (data ns) ;;
  shown <- call "DataFrame.sample" (pandas.sample 6 (Some 32%Z) (np_random ns) data) ;;
  display (out_frame shown) ;;;
  ret ns.

(** <<
data = data[data.label != 2]
train_split_idx = 1300
x_train = data[0:train_split_idx]['sentence']
y_train = data[0:train_split_idx]['label']
x_val = data[train_split_idx:]['sentence']
y_val = data[train_split_idx:]['label']
>> *)
Definition train_split_idx : Z := 1300.

Definition cell_6 `{Backend} (ns : namespace) : M namespace :=
  data <- lookup "data" (data ns) ;;
  let data := pandas.where_label_ne 2 data in
  let x_train :=
    pandas.col_sentence (pandas.getitem_slice (Some 0%Z) (Some train_split_idx) data) in
  let y_train :=
    pandas.col_label (pandas.getitem_slice (Some 0%Z) (Some train_split_idx) data) in
  let x_val := pandas.col_sentence (pandas.getitem_slice (Some train_split_idx) None data) in
  let y_val := pandas.col_label (pandas.getitem_slice (Some train_split_idx) None data) in
  ret (bind_split (bind_data ns data) x_train y_train x_val y_val).

(** ** Signal 1: the tf-idf multilayer perceptron *)

Definition TOP_K : Z := 20000.

Definition tfidf_args : sklearn.tfidf_kwargs :=
  {| sklearn.ngram_range := (1, 2);
     sklearn.dtype := "np.float64";
     sklearn.strip_accents := "unicode";
     sklearn.decode_error := "replace";
     sklearn.stop_words := ["a"; "an"; "the"; "i"];
     sklearn.analyzer := "word";
     sklearn.min_df := 1;
     sklearn.max_df := (33 # 100)%Q |}.

(** <<
inputs = keras.Input(shape = (x_val_tf.shape[1],))
x = layers.Dense(64, activation = 'relu')(inputs)
x = layers.Dropout(0.4)(x)
x = layers.Dense(64, activation = 'relu')(x)
x = layers.Dropout(0.4)(x)
outputs = layers.Dense(2, activation ='softmax')(x)
>> *)
Definition mlp_layers : list keras.layer :=
  [keras.Dense 64 keras.relu; keras.Dropout (4 # 10)%Q;
   keras.Dense 64 keras.relu; keras.Dropout (4 # 10)%Q;
   keras.Dense 2 keras.softmax].

Definition cell_8 `{Backend} (ns : namespace) : M namespace :=
  x_train <- lookup "x_train" (x_train ns) ;;
  tfvect <- call "TfidfVectorizer.fit_transform"
                 (TfidfVectorizer_fit tfidf_args (pandas.values x_train)) ;;
  let x_train_tf := sklearn.TfidfVectorizer_transform tfvect (pandas.values x_train) in
  x_val <- lookup "x_val" (x_val ns) ;;
  x_val_tf <- call "TfidfVectorizer.transform"
                   (Return (sklearn.TfidfVectorizer_transform tfvect (pandas.values x_val))) ;;
  let k := Z.min TOP_K (Z.of_nat (snd (shape x_train_tf))) in
  y_train <- lookup "y_train" (y_train ns) ;;
  selector <- call "SelectKBest.fit"
                   (sklearn.SelectKBest_fit f_classif_argsort k x_train_tf
                                            (pandas.values y_train)) ;;
  x_train_sel <- call "SelectKBest.transform"
                      (sklearn.SelectKBest_transform selector x_train_tf) ;;
  let x_train_tf := toarray x_train_sel in
  x_val_sel <- call "SelectKBest.transform"
                    (sklearn.SelectKBest_transform selector x_val_tf) ;;
  let x_val_tf := toarray x_val_sel in
  let inputs := keras.Input [Some (snd (shape x_val_tf))] "float32" in
  outputs <- lift (keras.chain inputs mlp_layers) ;;
  let arch := keras.Model_of inputs outputs in
  let model := {| architecture := arch; weights := initial_weights arch; compiled := None |} in
  let optimizer := keras.Adam (1 # 1000)%Q None in
  let model := Model_compile model optimizer (keras.sparse_categorical_crossentropy false)
                             [keras.accuracy] in
  y_val <- lookup "y_val" (y_val ns) ;;
  model <- Model_fit model (keras.arrays x_train_tf (pandas.values y_train))
                     (Some 32%Z) 10%Z
                     (Some (keras.arrays x_val_tf (pandas.values y_val))) ;;
  ret (bind_model (bind_tf ns x_train_tf x_val_tf) model).

(** ** Signal 1: the GloVe bidirectional LSTM *)

(** <<
embedding_layer = layers.Embedding(input_dim = len(vectorizer.get_vocabulary()) + 2,
    output_dim = 100, embeddings_initializer=keras.initializers.Constant(embeddings),
    trainable=False)
x = layers.Bidirectional(layers.LSTM(50, return_sequences=True, recurrent_dropout = 0.2))(...)
x = layers.Bidirectional(layers.LSTM(50, return_sequences=False, recurrent_dropout = 0.2))(x)
x = layers.Dropout(0.2)(x)
preds = layers.Dense(2, activation="softmax")(x)
>> *)
Definition bilstm_layers (vocabulary_len : nat) (embeddings : matrix) : list keras.layer :=
  [keras.Embedding (vocabulary_len + 2) 100 embeddings false;
   keras.Bidirectional_LSTM 50 true (2 # 10)%Q;
   keras.Bidirectional_LSTM 50 false (2 # 10)%Q;
   keras.Dropout (2 # 10)%Q;
   keras.Dense 2 keras.softmax].

Definition cell_9 `{Backend} (ns : namespace) : M namespace :=
  x_train <- lookup "x_train" (x_train ns) ;;
  ve <- call "create_vectorizer_and_embeddings" (create_vectorizer_and_embeddings x_train) ;;
  let vectorizer := fst ve in
  let embeddings := snd ve in
  x_train_vectorized <-
    call "TextVectorization.__call__"
         (TextVectorization_call vectorizer (map (fun s => [s]) (pandas.values x_train))) ;;
  x_val <- lookup "x_val" (x_val ns) ;;
  x_val_vectorized <-
    call "TextVectorization.__call__"
         (TextVectorization_call vectorizer (map (fun s => [s]) (pandas.values x_val))) ;;
  y_train <- lookup "y_train" (y_train ns) ;;
  let y_train_vectorized := pandas.values y_train in
  y_val <- lookup "y_val" (y_val ns) ;;
  let y_val_vectorized := pandas.values y_val in
  let int_sequences_input := keras.Input [None] "int64" in
  preds <- lift (keras.chain int_sequences_input
                             (bilstm_layers (length (get_vocabulary vectorizer)) embeddings)) ;;
  let arch := keras.Model_of int_sequences_input preds in
  let model := {| architecture := arch; weights := initial_weights arch; compiled := None |} in
  let optimizer := keras.Adam (1 # 1000)%Q None in
  let model := Model_compile model optimizer (keras.sparse_categorical_crossentropy false)
                             [keras.accuracy] in
  model <- with_device "/cpu:0"
             (Model_fit model (keras.arrays x_train_vectorized y_train_vectorized)
                        (Some 32%Z) 15%Z
                        (Some (keras.arrays x_val_vectorized y_val_vectorized))) ;;
  ret (bind_model (bind_vectorized ns x_train_vectorized x_val_vectorized
                                   y_train_vectorized y_val_vectorized) model).

(** ** Signal 2: BERT *)

(** <<
%%capture
BATCH_SIZE = 16
bert_tokenizer = BertTokenizer.from_pretrained('bert-base-cased')
train_bert = convert_data(bert_tokenizer, x_train, y_train).batch(BATCH_SIZE)
val_bert = convert_data(bert_tokenizer, x_val, y_val).batch(BATCH_SIZE)
>> *)
Definition cell_11 `{Backend} (ns : namespace) : M namespace :=
  capture (
    let BATCH_SIZE := 16%Z in
    bert_tokenizer <- call "BertTokenizer.from_pretrained"
                           (BertTokenizer_from_pretrained "bert-base-cased") ;;
    x_train <- lookup "x_train" (x_train ns) ;;
    y_train <- lookup "y_train" (y_train ns) ;;
    train <- call "convert_data" (convert_data bert_tokenizer x_train y_train) ;;
    let train_bert := Dataset_batch train BATCH_SIZE in
    x_val <- lookup "x_val" (x_val ns) ;;
    y_val <- lookup "y_val" (y_val ns) ;;
    val <- call "convert_data" (convert_data bert_tokenizer x_val y_val) ;;
    let val_bert := Dataset_batch val BATCH_SIZE in
    ret (bind_bert ns BATCH_SIZE bert_tokenizer train_bert val_bert)).

(** <<
model = TFBertForSequenceClassification.from_pretrained('bert-base-cased')
loss = tf.keras.losses.SparseCategoricalCrossentropy(from_logits=True)
metric = tf.keras.metrics.SparseCategoricalAccuracy('accuracy')
optimizer = tf.keras.optimizers.Adam(learning_rate=0.00002, epsilon=1e-08)
model.compile(optimizer=optimizer, loss=loss, metrics=[metric])
model.fit(train_bert, batch_size = BATCH_SIZE, epochs=2, validation_data=val_bert)
>> *)
Definition cell_12 `{Backend} (ns : namespace) : M namespace :=
  w <- call "TFBertForSequenceClassification.from_pretrained"
            (TFBertForSequenceClassification_from_pretrained "bert-base-cased") ;;
  let model := {| architecture := keras.TFBertForSequenceClassification "bert-base-cased";
                  weights := w; compiled := None |} in
  let loss := keras.sparse_categorical_crossentropy true in
  let metric := keras.SparseCategoricalAccuracy "accuracy" in
  let optimizer := keras.Adam (2 # 100000)%Q (Some (1 # 100000000)%Q) in
  let model := Model_compile model optimizer loss [metric] in
  train_bert <- lookup "train_bert" (train_bert ns) ;;
  batch_size <- lookup "BATCH_SIZE" (BATCH_SIZE ns) ;;
  val_bert <- lookup "val_bert" (val_bert ns) ;;
  model <- Model_fit model (keras.dataset train_bert) (Some batch_size) 2%Z
                     (Some (keras.dataset val_bert)) ;;
  ret (bind_model ns model).

(** ** Signals 3 to 8: code cells with an empty source *)
Definition empty_cell `{Backend} (ns : namespace) : M namespace := ret ns.

(** ** The notebook: markdown cells (by their first line) and code cells, in order *)

Inductive cell `{Backend} : Type :=
| markdown (first_line : string)
| code (body : namespace -> M namespace).

Definition notebook `{Backend} : list cell :=
  [ markdown "# Incorporating Indirect Means of Supervision in Practice";
    markdown "##### In this jupyter notebook we explore incorporating indirect means of supervision";
    markdown "## Problem and Dataset ";
    markdown "## Setup";
    code cell_4;
    code cell_5;
    code cell_6;
    markdown "# Signal 1: Traditional Supervision";
    code cell_8;
    code cell_9;
    markdown "# Signal 2: Transfer Learning - Applying knowledge gained on one problem to another";
    code cell_11;
    code cell_12;
    markdown "# Signal 3: External Features";
    code empty_cell;
    markdown "# Signal 4: Multitask Learning (MTL)";
    code empty_cell;
    markdown "# Signal 5: Dataset Slicing ";
    code empty_cell;
    markdown "# Signal 6: Data Augmentation";
    markdown "##### Pronoun replacement via Named Entity Recognition (NER)";
    code empty_cell;
    markdown "##### Fine-tuning GPT-3 to generate synthetic instances";
    code empty_cell;
    markdown "# Signal 7: Ensembling";
    code empty_cell;
    markdown "# Signal 8+?: Active Area of Research";
    code empty_cell ].

(** Running code cells one after the other; the first exception ends the run. *)
Fixpoint run `{Backend} (cs : list (namespace -> M namespace)) (ns : namespace)
  : M namespace :=
  match cs with
  | [] => ret ns
  | c :: cs' => ns' <- c ns ;; run cs' ns'
  end.

Definition code_cells `{Backend} (nb : list cell) : list (namespace -> M namespace) :=
  flat_map (fun c => match c with code b => [b] | markdown _ => [] end) nb.


(** A section is opened by a markdown cell whose first line is a level-one
    heading and holds the code cells up to the next such heading. *)
Definition is_h1 (s : string) : bool := String.prefix "# " s.

Fixpoint section_body `{Backend} (cs : list cell) : list (namespace -> M namespace) :=
  match cs with
  | [] => []
  | markdown s :: cs' => if is_h1 s then [] else section_body cs'
  | code b :: cs' => b :: section_body cs'
  end.

Fixpoint section `{Backend} (title : string) (cs : list cell)
  : list (namespace -> M namespace) :=
  match cs with
  | [] => []
  | markdown s :: cs' => if String.eqb s title then section_body cs' else section title cs'
  | code _ :: cs' => section title cs'
  end.

(** ** The supervision signals and what counts as an experiment on one *)

Inductive signal : Type :=
| tfidf_MLP
| GloVe_BiLSTM
| BERT_fine_tuning
| external_features
| multitask_learning
| dataset_slicing
| data_augmentation
| ensembling.

Definition all_signals : list signal :=
  [tfidf_MLP; GloVe_BiLSTM; BERT_fine_tuning; external_features;
   multitask_learning; dataset_slicing; data_augmentation; ensembling].

Definition heading (s : signal) : string :=
  match s with
  | tfidf_MLP | GloVe_BiLSTM => "# Signal 1: Traditional Supervision"
  | BERT_fine_tuning =>
      "# Signal 2: Transfer Learning - Applying knowledge gained on one problem to another"
  | external_features => "# Signal 3: External Features"
  | multitask_learning => "# Signal 4: Multitask Learning (MTL)"
  | dataset_slicing => "# Signal 5: Dataset Slicing "
  | data_augmentation => "# Signal 6: Data Augmentation"
  | ensembling => "# Signal 7: Ensembling"
  end.

Definition is_lstm (l : keras.layer) : bool :=
  match l with
  | keras.Bidirectional_LSTM _ _ _ => true
  | _ => false
  end.

(** Whether a network is of the kind a signal names; the five signals the text
    only describes accept any network. *)
Definition model_of_signal (s : signal) (a : keras.architecture) : bool :=
  match s, a with
  | tfidf_MLP, keras.Functional _ ls _ => negb (existsb is_lstm ls)
  | GloVe_BiLSTM, keras.Functional _ ls _ => existsb is_lstm ls
  | BERT_fine_tuning, keras.TFBertForSequenceClassification _ => true
  | (tfidf_MLP | GloVe_BiLSTM | BERT_fine_tuning), _ => false
  | _, _ => true
  end.

Definition encoding_calls : list string :=
  ["TfidfVectorizer.fit_transform"; "TextVectorization.__call__"; "convert_data"].

Definition encodes_data `{Backend} (e : event) : bool :=
  match e with
  | Called f => existsb (String.eqb f) encoding_calls
  | _ => false
  end.

Definition fits_with_validation `{Backend} (s : signal) (e : event) : bool :=
  match e with
  | Fit m _ _ _ (Some _) =>
      model_of_signal s (architecture m) &&
      match compiled m with Some _ => true | None => false end
  | _ => false
  end.

Definition reports_metrics `{Backend} (e : event) : bool :=
  match e with
  | Displayed (out_history _) => true
  | _ => false
  end.

(** A trace is an experiment on [s] when data was encoded, a compiled model of
    the signal's kind was fitted with validation data, and the metrics of a
    training run were printed. *)
Definition experiment `{Backend} (s : signal) (t : list event) : bool :=
  existsb encodes_data t && existsb (fits_with_validation s) t && existsb reports_metrics t.

(** The notebook demonstrates [s] when every completed run of the section of
    [s] is an experiment on [s]. *)
Definition demonstrated `{Backend} (s : signal) : Prop :=
  forall ns t ns',
    run (section (heading s) notebook) ns = (t, Return ns') -> experiment s t = true.


End MTL_Tutorial.

(* ------------------------------------------------------------------ *)
(** * mtl_helpers.read_finphrase *)

Module mtl_helpers.

Inductive polarity : Type := positive | negative | neutral.

(** The label encoding the notebook documents next to its sample of the data:
    1 is "positive", 0 is "negative", 2 is "neutral". *)
Definition encode (p : polarity) : Z :=
  match p with
  | positive => 1
  | negative => 0
  | neutral => 2
  end.

(** A file system as far as the phrase bank goes: a path holds sentences, each
    annotated with its polarity. *)
Definition phrase_files := string -> option (list (string * polarity)).

(** Modelled from the spec: [read_finphrase] of [mtl_helpers], whose source is
    not in the repository snapshot.  The spec describes the dataset as text
    classified into positive, negative or neutral polarity; the loader returns
    one [sentence, label] record per annotated sentence, with the label codes
    above, and raises when the file is missing. *)
Definition read_finphrase (fs : phrase_files) (path : string)
  : result (list (option string * option Z)) :=
  match fs path with
  | None => Raise (FileNotFoundError path)
  | Some annotated =>
      Return (map (fun sp => (Some (fst sp), Some (encode (snd sp)))) annotated)
  end.

End mtl_helpers.

(* ------------------------------------------------------------------ *)
(** * A small executable backend *)

Module Small.

Definition files : mtl_helpers.phrase_files :=
  fun path =>
    if String.eqb path "data/Sentences_66Agree.txt"
    then Some [ ("Profit rose .", mtl_helpers.positive);
                ("Sales fell .", mtl_helpers.negative);
                ("The office is in Helsinki .", mtl_helpers.neutral);
                ("Orders grew by 5 % .", mtl_helpers.positive);
                ("The company cut 22 jobs .", mtl_helpers.negative);
                ("The meeting is on Monday .", mtl_helpers.neutral);
                ("Net sales increased .", mtl_helpers.positive) ]
    else None.

(** A generator whose state is a counter: odd states reverse, even states rotate by one. *)
#[export] Instance rng : NumpyRandom := {
  RandomState := nat;
  RandomState_seed := Z.to_nat;
  permutation := fun g n =>
    if Nat.even g then match seq 0 n with [] => [] | i :: l => l ++ [i] end
    else rev (seq 0 n)
}.

Definition zeros (r c : nat) : matrix :=
  {| nrows := r; ncols := c; entry := fun _ _ => 0%Q |}.

(** The backend over a given loader: trivial encoders, a trainer that counts
    epochs. *)
Definition make (loader : string -> result (list (option string * option Z)))
  : Backend := {|
  backend_random := rng;
  read_finphrase := loader;
  TextVectorization := unit;
  create_vectorizer_and_embeddings := fun _ => Return (tt, zeros 2 100);
  Tokenizer := unit;
  Dataset := list (option string * option Z);
  convert_data := fun _ x y => Return (combine (pandas.values x) (pandas.values y));
  TfidfVectorizer_fit := fun _ docs =>
    Return {| sklearn.n_features := 3; sklearn.tfidf := fun _ _ => 0%Q |};
  f_classif_argsort := fun X _ => Return (seq 0 (ncols X));
  TextVectorization_call := fun _ docs => Return (zeros (length docs) 200);
  get_vocabulary := fun _ => [];
  Dataset_batch := fun d _ => d;
  Weights := nat;
  History := list Q;
  initial_weights := fun _ => 0;
  train := fun _ _ w _ _ epochs _ => Return (w + Z.to_nat epochs, [(1 # 2)%Q]);
  BertTokenizer_from_pretrained := fun _ => Return tt;
  TFBertForSequenceClassification_from_pretrained := fun _ => Return 110
|}.

#[export] Instance backend : Backend := make (mtl_helpers.read_finphrase files).


(** A phrase bank of [n] sentences whose polarities cycle through positive,
    negative, neutral. *)
Definition cycle (i : nat) : mtl_helpers.polarity :=
  match i mod 3 with
  | 0 => mtl_helpers.positive
  | 1 => mtl_helpers.negative
  | _ => mtl_helpers.neutral
  end.

Definition many_files (n : nat) : mtl_helpers.phrase_files :=
  fun path =>
    if String.eqb path "data/Sentences_66Agree.txt"
    then Some (map (fun i => ("s", cycle i)) (seq 0 n))
    else None.

Definition many (n : nat) : Backend := make (mtl_helpers.read_finphrase (many_files n)).

End Small.

Import MTL_Tutorial.
Import pandas.

(* ------------------------------------------------------------------ *)
(** * What the statements below talk about *)

(** The cells of a row, without its index label. *)
Definition content (r : row) : option string * option Z := (sentence r, label r).

(** The setup cell and the two cells after it, in notebook order. *)
Definition setup_and_split `{Backend} : list (namespace -> M namespace) :=
  [cell_4; cell_5; cell_6].

(** [ns'] holds a train/validation partition of the frame the setup cell
    bound in a run started from [ns]. *)
Definition split_partitions `{Backend} (ns ns' : namespace) : Prop :=
  exists t1 ns1 shuffled xt yt xv yv,
    cell_4 ns = (t1, Return ns1) /\ data ns1 = Some shuffled /\
    let d := where_label_ne 2 shuffled in
    data ns' = Some d /\
    x_train ns' = Some xt /\ y_train ns' = Some yt /\
    x_val ns' = Some xv /\ y_val ns' = Some yv /\
    xt = col_sentence (firstn 1300 d) /\ yt = col_label (firstn 1300 d) /\
    xv = col_sentence (skipn 1300 d) /\ yv = col_label (skipn 1300 d) /\
    (forall i, In i (Series_index xt) -> In i (Series_index xv) -> False) /\
    Series_index xt ++ Series_index xv = index d /\
    Series_index yt = Series_index xt /\ Series_index yv = Series_index xv /\
    NoDup (index d) /\
    (forall p i s j l,
        nth_error xt p = Some (i, s) -> nth_error yt p = Some (j, l) ->
        p < 1300 /\
        exists r, nth_error d p = Some r /\ idx r = i /\ idx r = j /\
                  sentence r = s /\ label r = l) /\
    (forall p i s j l,
        nth_error xv p = Some (i, s) -> nth_error yv p = Some (j, l) ->
        exists r, nth_error d (1300 + p) = Some r /\ idx r = i /\ idx r = j /\
                  sentence r = s /\ label r = l).

(** A cell that is present and holds one of the given label codes. *)
Definition labelled_with (codes : list Z) (c : option Z) : Prop :=
  exists z, c = Some z /\ In z codes.

(** Every label of the split is 0 or 1, and every sentence is present. *)
Definition binary_split `{Backend} (ns' : namespace) : Prop :=
  exists xt yt xv yv,
    x_train ns' = Some xt /\ y_train ns' = Some yt /\
    x_val ns' = Some xv /\ y_val ns' = Some yv /\
    Forall (fun c => labelled_with [0; 1]%Z (snd c)) yt /\
    Forall (fun c => labelled_with [0; 1]%Z (snd c)) yv /\
    Forall (fun c => snd c <> None) xt /\
    Forall (fun c => snd c <> None) xv.

(** The model a cell leaves in [model] classifies into two classes with a
    final [Dense(2, softmax)]. *)
Definition binary_head `{Backend} (ns' : namespace) : Prop :=
  exists m,
    model ns' = Some m /\
    keras.output_classes (architecture m) = Some 2 /\
    keras.head (architecture m) = Some (keras.Dense 2 keras.softmax).

(** The networks the two cells of Signal 1 build, and what they compile with. *)
Definition mlp_architecture (d : nat) : keras.architecture :=
  keras.Functional [Some d] mlp_layers [Some 2].

Definition bilstm_architecture (vocabulary_len : nat) (embeddings : matrix)
  : keras.architecture :=
  keras.Functional [None] (bilstm_layers vocabulary_len embeddings) [Some 2].

Definition signal_1_compile : keras.compile_kwargs :=
  {| keras.compile_optimizer := keras.Adam (1 # 1000)%Q None;
     keras.compile_loss := keras.sparse_categorical_crossentropy false;
     keras.compile_metrics := [keras.accuracy] |}.

Definition bert_architecture : keras.architecture :=
  keras.TFBertForSequenceClassification "bert-base-cased".

Definition bert_compile : keras.compile_kwargs :=
  {| keras.compile_optimizer := keras.Adam (2 # 100000)%Q (Some (1 # 100000000)%Q);
     keras.compile_loss := keras.sparse_categorical_crossentropy true;
     keras.compile_metrics := [keras.SparseCategoricalAccuracy "accuracy"] |}.

(** The records a loader returned carry three classes: every label present
    is 0, 1 or 2. *)
Definition three_class_records (records : list (option string * option Z)) : bool :=
  forallb (fun rec => match snd rec with
                      | Some z => existsb (Z.eqb z) [0; 1; 2]%Z
                      | None => true
                      end) records.

(** At load time: the frame bound to [data] has a label among 0, 1, 2 in every
    row, each row being an annotated sentence of the file with the code of its
    polarity. *)
Definition three_class_frame `{Backend} (fs : mtl_helpers.phrase_files)
           (ns' : namespace) : Prop :=
  exists annotated d,
    fs "data/Sentences_66Agree.txt" = Some annotated /\
    data ns' = Some d /\
    Forall (fun r => labelled_with [0; 1; 2]%Z (label r)) d /\
    Forall (fun r => exists s p,
                In (s, p) annotated /\ sentence r = Some s /\
                label r = Some (mtl_helpers.encode p)) d.

(** Two namespaces hold the same frame and the same split. *)
Definition same_split `{Backend} (a b : namespace) : Prop :=
  data a = data b /\
  x_train a = x_train b /\ y_train a = y_train b /\
  x_val a = x_val b /\ y_val a = y_val b.

(** Two runs made the same calls, showed the same outputs, and ended alike:
    with the same exception, or with the same frame and split. *)
Definition same_run `{Backend} (r1 r2 : M namespace) : Prop :=
  trace r1 = trace r2 /\
  match outcome r1, outcome r2 with
  | Return a, Return b => same_split a b
  | Raise e1, Raise e2 => e1 = e2
  | _, _ => False
  end.








(** A completed BERT cell: the weights came from the checkpoint, the fit (two
    epochs) started from exactly these weights, and [model] holds what that
    fit returned. *)
Definition fine_tuned_from_checkpoint `{Backend} (ns' : namespace) (t : list event)
  : Prop :=
  exists w0 x b v w h,
    TFBertForSequenceClassification_from_pretrained "bert-base-cased" = Return w0 /\
    t = [Called "TFBertForSequenceClassification.from_pretrained";
         Fit {| architecture := bert_architecture; weights := w0;
                compiled := Some bert_compile |} x b 2%Z (Some v);
         Displayed (out_history h)] /\
    train bert_architecture bert_compile w0 x b 2%Z (Some v) = Return (w, h) /\
    model ns' = Some {| architecture := bert_architecture; weights := w;
                        compiled := Some bert_compile |}.

(** A fit seen in a trace of the BERT cell, completed or not: two epochs, on
    the weights [from_pretrained] returned, after the call that loaded them. *)
Definition fit_follows_from_pretrained `{Backend} (t : list event) (e : event) : Prop :=
  match e with
  | Fit m _ _ epochs _ =>
      epochs = 2%Z /\
      architecture m = bert_architecture /\
      TFBertForSequenceClassification_from_pretrained "bert-base-cased"
      = Return (weights m) /\
      exists t', t = Called "TFBertForSequenceClassification.from_pretrained" :: t' /\
                 In e t'
  | _ => True
  end.




(** The notebook demonstrates every signal of the list. *)
Definition every_signal_demonstrated `{Backend} : Prop :=
  forall s, In s all_signals -> demonstrated s.

(** The signals the notebook only describes. *)
Definition described_only : list signal :=
  [external_features; multitask_learning; dataset_slicing; data_augmentation; ensembling].

(** Kernels of the small backend: fresh, after the split cell, and after the
    tokenizing cell. *)
Definition small_fresh : @namespace Small.backend := @fresh_kernel Small.backend 3.

Definition small_after_split : @namespace Small.backend :=
  match outcome (@run Small.backend setup_and_split small_fresh) with
  | Return ns => ns
  | Raise _ => small_fresh
  end.

Definition small_after_tokenizing : @namespace Small.backend :=
  match outcome (@cell_11 Small.backend small_after_split) with
  | Return ns => ns
  | Raise _ => small_after_split
  end.

(** ** Notions for the further properties *)

(** The generator hands out a genuine permutation of the positions [0 .. n-1]. *)
Definition valid_permutation `{NumpyRandom} (g : RandomState) (n : nat) : Prop :=
  Permutation (permutation g n) (seq 0 n).

(** A record with both cells present. *)
Definition complete (rec : option string * option Z) : bool :=
  match rec with
  | (Some _, Some _) => true
  | _ => false
  end.






(** A fit as the notebook makes them: on a compiled model, with a batch size,
    at least one epoch, and validation data. *)
Definition well_formed_fit `{Backend} (e : event) : Prop :=
  match e with
  | Fit m _ b epochs v =>
      compiled m <> None /\ b <> None /\ (0 < epochs)%Z /\ v <> None
  | _ => True
  end.


(** Every fit in the trace of a computation is well formed. *)
Definition fits_well `{Backend} {A} (m : M A) : Prop :=
  Forall well_formed_fit (trace m).




(* ================================================================== *)
(** * Properties *)

(** ** Slices *)

Lemma slice_prefix {A} (stop : Z) (l : list A) :
  (0 <= stop)%Z -> slice (Some 0%Z) (Some stop) l = firstn (Z.to_nat stop) l.
Proof.
  intros Hs. unfold slice, slice_bound. cbv zeta.
  destruct (0 <? 0)%Z eqn:E0; [discriminate|].
  destruct (stop <? 0)%Z eqn:E1; [apply Z.ltb_lt in E1; lia|].
  rewrite (Z.min_l 0) by lia. rewrite Z.sub_0_r. simpl skipn.
  destruct (Z.le_gt_cases stop (Z.of_nat (length l))) as [Hle|Hgt].
  - rewrite Z.min_l by lia. reflexivity.
  - rewrite Z.min_r by lia. rewrite Nat2Z.id.
    rewrite firstn_all. symmetry. apply firstn_all2. lia.
Qed.

Lemma slice_suffix {A} (start : Z) (l : list A) :
  (0 <= start)%Z -> slice (Some start) None l = skipn (Z.to_nat start) l.
Proof.
  intros Hs. unfold slice, slice_bound. cbv zeta.
  destruct (start <? 0)%Z eqn:E1; [apply Z.ltb_lt in E1; lia|].
  destruct (Z.le_gt_cases start (Z.of_nat (length l))) as [Hle|Hgt].
  - rewrite Z.min_l by lia. apply firstn_all2.
    rewrite length_skipn. lia.
  - rewrite Z.min_r by lia. rewrite Z.sub_diag. simpl.
    symmetry. apply skipn_all2. lia.
Qed.

(** ** Frames *)

Lemma take_In locs : forall df rs,
  take locs df = Return rs -> forall r, In r rs -> In r df.
Proof.
  induction locs as [|i locs IH]; intros df rs H r Hr; simpl in H.
  - inversion H; subst. contradiction.
  - destruct (nth_error df i) as [r0|] eqn:En; [|discriminate].
    destruct (take locs df) as [rs0|e] eqn:Et; [|discriminate].
    inversion H; subst. destruct Hr as [<-|Hr].
    + eapply nth_error_In; eassumption.
    + eapply IH; eauto.
Qed.

Lemma index_reset_index df : index (reset_index df) = seq 0 (length df).
Proof.
  unfold index, reset_index. rewrite map_map. simpl.
  change (fun x : nat * row => fst x) with (@fst nat row).
  generalize 0. induction df as [|r df IH]; intros n; simpl; [reflexivity|].
  f_equal. apply IH.
Qed.

Lemma NoDup_index_reset_index df : NoDup (index (reset_index df)).
Proof. rewrite index_reset_index. apply seq_NoDup. Qed.

Lemma content_reset_index df : map content (reset_index df) = map content df.
Proof.
  unfold reset_index. generalize 0.
  induction df as [|r df IH]; intros n; simpl; [reflexivity|].
  f_equal. apply IH.
Qed.

Lemma In_content_reset_index df r :
  In r (reset_index df) -> exists r0, In r0 df /\ content r0 = content r.
Proof.
  intros Hr. apply (in_map content) in Hr. rewrite content_reset_index in Hr.
  apply in_map_iff in Hr. destruct Hr as [r0 [E H0]]. eauto.
Qed.

Lemma In_from_records records r :
  In r (from_records records) -> In (content r) records.
Proof.
  unfold from_records. intros Hr. apply in_map_iff in Hr.
  destruct Hr as [[i [s l]] [E Hin]]. subst r. simpl.
  apply in_combine_r in Hin. exact Hin.
Qed.

Lemma NoDup_map_filter {A} (f : A -> bool) (g : A -> nat) l :
  NoDup (map g l) -> NoDup (map g (filter f l)).
Proof.
  induction l as [|a l IH]; simpl; intros H; [constructor|].
  inversion H as [|x xs Hnin Hnd]; subst.
  destruct (f a); simpl; [constructor|]; auto.
  intros Hin. apply Hnin. apply in_map_iff in Hin.
  destruct Hin as [b [E Hb]]. apply filter_In in Hb.
  apply in_map_iff. exists b. tauto.
Qed.

Lemma NoDup_app_disjoint {A} (l1 l2 : list A) :
  NoDup (l1 ++ l2) -> forall x, In x l1 -> In x l2 -> False.
Proof.
  induction l1 as [|a l1 IH]; simpl; intros H x H1 H2; [contradiction|].
  inversion H as [|y ys Hnin Hnd]; subst.
  destruct H1 as [<-|H1].
  - apply Hnin. apply in_or_app. now right.
  - eapply IH; eauto.
Qed.

(** ** Completed computations in the cell monad *)

Section Completed.
Context `{Backend}.

Lemma bind_Return {A B} (m : M A) (f : A -> M B) t b :
  bind m f = (t, Return b) ->
  exists t1 a t2, m = (t1, Return a) /\ f a = (t2, Return b) /\ t = t1 ++ t2.
Proof.
  unfold bind. destruct m as [t1 [a|e]]; [|discriminate].
  destruct (f a) as [t2 r] eqn:Ef. intros E; inversion E; subst.
  exists t1, a, t2. auto.
Qed.

Lemma ret_Return {A} (a b : A) t : ret a = (t, Return b) -> a = b /\ t = [].
Proof. unfold ret. intros E; inversion E; auto. Qed.

Lemma call_Return {A} f (r : result A) t a :
  call f r = (t, Return a) -> r = Return a /\ t = [Called f].
Proof. unfold call. destruct r; intros E; inversion E; auto. Qed.

Lemma lookup_Return {A} name (v : option A) t a :
  lookup name v = (t, Return a) -> v = Some a /\ t = [].
Proof. unfold lookup, ret, raise. destruct v; intros E; inversion E; auto. Qed.

Lemma lift_Return {A} (r : result A) t a :
  lift r = (t, Return a) -> r = Return a /\ t = [].
Proof. unfold lift, ret, raise. destruct r; intros E; inversion E; auto. Qed.

Lemma display_Return o t u : display o = (t, Return u) -> t = [Displayed o].
Proof. unfold display. intros E; inversion E; auto. Qed.

Lemma capture_Return {A} (m : M A) t a :
  capture m = (t, Return a) ->
  exists t0, m = (t0, Return a) /\ t = filter (fun e => negb (is_displayed e)) t0.
Proof.
  unfold capture. destruct m as [t0 r]. simpl. intros E; inversion E; subst.
  exists t0. auto.
Qed.

Lemma Model_fit_Return m x b e v t m' :
  Model_fit m x b e v = (t, Return m') ->
  exists c w h,
    compiled m = Some c /\
    train (architecture m) c (weights m) x b e v = Return (w, h) /\
    t = [Fit m x b e v; Displayed (out_history h)] /\
    m' = {| architecture := architecture m; weights := w; compiled := Some c |}.
Proof.
  unfold Model_fit. destruct (compiled m) as [c|]; [|discriminate].
  destruct (train (architecture m) c (weights m) x b e v) as [[w h]|ex] eqn:Et;
    simpl; intros E; inversion E; subst.
  exists c, w, h. auto.
Qed.

End Completed.

(** Takes a completed cell apart, call by call. *)
Ltac completed :=
  repeat match goal with
  | H : bind _ _ = (_, Return _) |- _ =>
      apply bind_Return in H; destruct H as (? & ? & ? & H & ? & ?)
  | H : ret _ = (_, Return _) |- _ => apply ret_Return in H; destruct H
  | H : call _ _ = (_, Return _) |- _ => apply call_Return in H; destruct H
  | H : lookup _ _ = (_, Return _) |- _ => apply lookup_Return in H; destruct H
  | H : lift _ = (_, Return _) |- _ => apply lift_Return in H; destruct H
  | H : display _ = (_, Return _) |- _ => apply display_Return in H
  | H : capture _ = (_, Return _) |- _ =>
      apply capture_Return in H; destruct H as (? & H & ?)
  | H : with_device _ _ = (_, Return _) |- _ => unfold with_device in H
  | H : Model_fit _ _ _ _ _ = (_, Return _) |- _ =>
      apply Model_fit_Return in H; destruct H as (? & ? & ? & ? & H & ? & ?)
  end.

Section Pipeline.
Context `{Backend}.

Lemma sample_seeded n seed g1 g2 df :
  sample n (Some seed) g1 df = sample n (Some seed) g2 df.
Proof. reflexivity. Qed.

(** What the setup cell leaves in [data] when it completes. *)
Lemma cell_4_completed ns t ns' :
  cell_4 ns = (t, Return ns') ->
  exists records shuffled,
    read_finphrase "data/Sentences_66Agree.txt" = Return records /\
    (forall g, sample_frac1 (Some 42%Z) g (dropna (from_records records))
               = Return shuffled) /\
    ns' = bind_data ns (reset_index shuffled) /\
    t = [Called "read_finphrase"; Called "DataFrame.sample"].
Proof.
  unfold cell_4. intros Hc. completed. subst.
  do 2 eexists. split; [eassumption|]. split; [|split; reflexivity].
  intros g. unfold sample_frac1 in *.
  rewrite (sample_seeded _ _ g (np_random ns)). assumption.
Qed.

Lemma sample_In n state g df rs :
  sample n state g df = Return rs -> forall r, In r rs -> In r df.
Proof.
  unfold sample. destruct (length df <? n); [discriminate|].
  apply take_In.
Qed.

(** The displaying cell leaves the namespace as it was. *)
Lemma cell_5_completed ns t ns' : cell_5 ns = (t, Return ns') -> ns' = ns.
Proof. unfold cell_5. intros Hc. completed. congruence. Qed.



(** The split cell: the filter, then two positional slices at [train_split_idx]. *)
Lemma cell_6_completed ns t ns' :
  cell_6 ns = (t, Return ns') ->
  exists d0,
    data ns = Some d0 /\
    let d := where_label_ne 2 d0 in
    let n := Z.to_nat train_split_idx in
    ns' = bind_split (bind_data ns d)
                     (col_sentence (firstn n d)) (col_label (firstn n d))
                     (col_sentence (skipn n d)) (col_label (skipn n d)).
Proof.
  unfold cell_6. intros Hc. completed. subst.
  eexists. split; [eassumption|]. cbv zeta.
  unfold getitem_slice.
  rewrite slice_prefix by (unfold train_split_idx; lia).
  rewrite slice_suffix by (unfold train_split_idx; lia).
  reflexivity.
Qed.

(** ** Splitting a frame at a position *)

Lemma Series_index_col_sentence d : Series_index (col_sentence d) = index d.
Proof. unfold Series_index, col_sentence, index. rewrite map_map. reflexivity. Qed.

Lemma Series_index_col_label d : Series_index (col_label d) = index d.
Proof. unfold Series_index, col_label, index. rewrite map_map. reflexivity. Qed.

Lemma index_split n d : index (firstn n d) ++ index (skipn n d) = index d.
Proof. unfold index. rewrite <- map_app, firstn_skipn. reflexivity. Qed.

Lemma index_split_disjoint n d :
  NoDup (index d) ->
  forall i, In i (index (firstn n d)) -> In i (index (skipn n d)) -> False.
Proof. intros Hnd. apply NoDup_app_disjoint. rewrite index_split. exact Hnd. Qed.

Lemma train_rows_aligned n d p i s j l :
  nth_error (col_sentence (firstn n d)) p = Some (i, s) ->
  nth_error (col_label (firstn n d)) p = Some (j, l) ->
  p < n /\
  exists r, nth_error d p = Some r /\ idx r = i /\ idx r = j /\
            sentence r = s /\ label r = l.
Proof.
  unfold col_sentence, col_label. rewrite !nth_error_map, nth_error_firstn.
  destruct (p <? n) eqn:Ep; [|discriminate].
  apply Nat.ltb_lt in Ep.
  destruct (nth_error d p) as [r|]; [|discriminate]. simpl.
  intros E1 E2. inversion E1; inversion E2; subst. split; [assumption|].
  exists r. auto.
Qed.

Lemma val_rows_aligned n d p i s j l :
  nth_error (col_sentence (skipn n d)) p = Some (i, s) ->
  nth_error (col_label (skipn n d)) p = Some (j, l) ->
  exists r, nth_error d (n + p) = Some r /\ idx r = i /\ idx r = j /\
            sentence r = s /\ label r = l.
Proof.
  unfold col_sentence, col_label. rewrite !nth_error_map, nth_error_skipn.
  destruct (nth_error d (n + p)) as [r|]; [|discriminate]. simpl.
  intros E1 E2. inversion E1; inversion E2; subst.
  exists r. auto.
Qed.

Lemma run_setup_and_split ns t ns' :
  run setup_and_split ns = (t, Return ns') ->
  exists t1 ns1 t2 t3,
    cell_4 ns = (t1, Return ns1) /\ cell_5 ns1 = (t2, Return ns1) /\
    cell_6 ns1 = (t3, Return ns') /\ t = t1 ++ t2 ++ t3.
Proof.
  unfold setup_and_split. cbn [run]. intros Hr.
  apply bind_Return in Hr. destruct Hr as (t1 & ns1 & t1' & H4 & Hr & ->).
  apply bind_Return in Hr. destruct Hr as (t2 & ns2 & t2' & H5 & Hr & ->).
  apply bind_Return in Hr. destruct Hr as (t3 & ns3 & t3' & H6 & Hr & ->).
  apply ret_Return in Hr. destruct Hr as [-> ->].
  pose proof (cell_5_completed _ H5). subst ns2.
  exists t1, ns1, t2, t3. rewrite app_nil_r. auto.
Qed.

End Pipeline.

(** C8: the train/validation split is a partition of the filtered frame.
    When the setup, display and split cells complete, [x_train]/[y_train] are
    the sentence and label columns of positions 0..1299 of the shuffled frame
    with the rows of label 2 removed, [x_val]/[y_val] are the columns of the
    remaining positions, no index label occurs on both sides, the two index
    lists together are the index of the filtered frame, and at every position
    the sentence and the label carry the index and the cells of one row. *)
Theorem train_val_split_is_partition `{Backend} ns t ns' :
  run setup_and_split ns = (t, Return ns') -> split_partitions ns ns'.
Proof.
  intros Hr. apply run_setup_and_split in Hr. unfold split_partitions.
  destruct Hr as (t1 & ns1 & t2 & t3 & H4 & H5 & H6 & Et).
  pose proof (cell_4_completed _ H4) as (records & shuffled & Hread & Hs & Ens1 & _).
  pose proof (cell_6_completed _ H6) as (d0 & Hd0 & Ens').
  assert (Hd : d0 = reset_index shuffled) by (subst ns1; simpl in Hd0; congruence).
  subst d0. cbv zeta in Ens'.
  change (Z.to_nat train_split_idx) with 1300 in Ens'.
  remember 1300 as n eqn:En. clear En.
  assert (Hnd : NoDup (index (where_label_ne 2 (reset_index shuffled)))).
  { unfold index, where_label_ne. apply NoDup_map_filter. apply NoDup_index_reset_index. }
  exists t1, ns1, (reset_index shuffled).
  do 4 eexists. split; [exact H4|]. split; [exact Hd0|]. cbv zeta.
  subst ns'. simpl.
  repeat (split; [reflexivity|]).
  rewrite !Series_index_col_sentence, !Series_index_col_label.
  split; [apply index_split_disjoint; exact Hnd|].
  split; [apply index_split|].
  do 2 (split; [reflexivity|]).
  split; [exact Hnd|].
  split; intros p i s j l; [apply train_rows_aligned | apply val_rows_aligned].
Qed.

Lemma train_val_split_is_partition_witness :
  exists t ns',
    @run Small.backend setup_and_split (@fresh_kernel Small.backend 3) = (t, Return ns') /\
    @split_partitions Small.backend (@fresh_kernel Small.backend 3) ns'.
Proof.
  eexists. eexists. split.
  - vm_compute. reflexivity.
  - eapply (@train_val_split_is_partition Small.backend). vm_compute. reflexivity.
Defined.

(** ** Labels through the setup and split cells *)

Section Labels.
Context `{Backend}.

Lemma setup_rows_are_records ns t ns' :
  cell_4 ns = (t, Return ns') ->
  exists records d,
    read_finphrase "data/Sentences_66Agree.txt" = Return records /\
    data ns' = Some d /\
    Forall (fun r => In (content r) records /\ notna r = true) d.
Proof.
  intros H4. pose proof (cell_4_completed _ H4) as (records & shuffled & Hread & Hs & -> & _).
  exists records, (reset_index shuffled). split; [exact Hread|]. split; [reflexivity|].
  apply Forall_forall. intros r Hr.
  apply In_content_reset_index in Hr. destruct Hr as (r0 & Hr0 & Ec).
  specialize (Hs (np_random ns)). unfold sample_frac1 in Hs.
  apply (sample_In _ _ _ _ Hs) in Hr0.
  unfold dropna in Hr0. apply filter_In in Hr0. destruct Hr0 as [Hin Hna].
  apply In_from_records in Hin. rewrite Ec in Hin. split; [exact Hin|].
  unfold notna in *. unfold content in Ec.
  replace (sentence r) with (sentence r0) by congruence.
  replace (label r) with (label r0) by congruence. exact Hna.
Qed.

Lemma Forall_split_parts {A} (P : A -> Prop) n l :
  Forall P l -> Forall P (firstn n l) /\ Forall P (skipn n l).
Proof. intros Hl. apply Forall_app. rewrite firstn_skipn. exact Hl. Qed.

Lemma filtered_labels_binary d :
  Forall (fun r => labelled_with [0; 1; 2]%Z (label r)) d ->
  Forall (fun r => labelled_with [0; 1]%Z (label r)) (where_label_ne 2 d).
Proof.
  intros Hd. apply Forall_forall. intros r Hr.
  unfold where_label_ne in Hr. apply filter_In in Hr. destruct Hr as [Hin Hne].
  rewrite Forall_forall in Hd. destruct (Hd r Hin) as (z & Ez & Hz).
  exists z. split; [exact Ez|]. rewrite Ez in Hne. simpl in Hne.
  apply negb_true_iff, Z.eqb_neq in Hne.
  simpl in Hz. simpl. intuition congruence.
Qed.

End Labels.

(** ** The experiment cells, when they complete *)

Section Experiments.
Context `{Backend}.

Lemma mlp_graph d :
  keras.chain (keras.Input [Some d] "float32") mlp_layers
  = Return {| keras.input_shape := [Some d]; keras.input_dtype := "float32";
              keras.applied := mlp_layers; keras.tshape := [Some 2] |}.
Proof. reflexivity. Qed.

Lemma bilstm_graph v e :
  keras.chain (keras.Input [None] "int64") (bilstm_layers v e)
  = Return {| keras.input_shape := [None]; keras.input_dtype := "int64";
              keras.applied := bilstm_layers v e; keras.tshape := [Some 2] |}.
Proof. reflexivity. Qed.

Lemma cell_8_completed ns t ns' :
  cell_8 ns = (t, Return ns') ->
  exists xs ys xv yv tfvect sel xt_sel xv_sel w h,
    x_train ns = Some xs /\ y_train ns = Some ys /\
    x_val ns = Some xv /\ y_val ns = Some yv /\
    TfidfVectorizer_fit tfidf_args (values xs) = Return tfvect /\
    let X := sklearn.TfidfVectorizer_transform tfvect (values xs) in
    let Xv := sklearn.TfidfVectorizer_transform tfvect (values xv) in
    sklearn.SelectKBest_fit f_classif_argsort (Z.min TOP_K (Z.of_nat (ncols X))) X (values ys)
    = Return sel /\
    sklearn.SelectKBest_transform sel X = Return xt_sel /\
    sklearn.SelectKBest_transform sel Xv = Return xv_sel /\
    let arch := mlp_architecture (ncols xv_sel) in
    let m0 := {| architecture := arch; weights := initial_weights arch;
                 compiled := Some signal_1_compile |} in
    train arch signal_1_compile (initial_weights arch)
          (keras.arrays xt_sel (values ys)) (Some 32%Z) 10%Z
          (Some (keras.arrays xv_sel (values yv))) = Return (w, h) /\
    t = [Called "TfidfVectorizer.fit_transform"; Called "TfidfVectorizer.transform";
         Called "SelectKBest.fit"; Called "SelectKBest.transform";
         Called "SelectKBest.transform";
         Fit m0 (keras.arrays xt_sel (values ys)) (Some 32%Z) 10%Z
             (Some (keras.arrays xv_sel (values yv)));
         Displayed (out_history h)] /\
    ns' = bind_model (bind_tf ns xt_sel xv_sel)
                     {| architecture := arch; weights := w;
                        compiled := Some signal_1_compile |}.
Proof.
  unfold cell_8. intros Hc. completed.
  repeat match goal with
         | E : Return _ = Return _ |- _ => inversion E; clear E
         end.
  subst. unfold shape, toarray in *. simpl snd in *.
  match goal with
  | Hg : keras.chain _ mlp_layers = Return _ |- _ =>
      rewrite mlp_graph in Hg; inversion Hg; clear Hg
  end.
  subst. simpl in *.
  match goal with E : Some _ = Some _ |- _ => inversion E; clear E end. subst.
  do 10 eexists. cbv zeta.
  repeat (split; [eassumption|]).
  split; [|reflexivity]. reflexivity.
Qed.

Lemma cell_9_completed ns t ns' :
  cell_9 ns = (t, Return ns') ->
  exists xs ys xv yv vectorizer embeddings xt_vec xv_vec w h,
    x_train ns = Some xs /\ y_train ns = Some ys /\
    x_val ns = Some xv /\ y_val ns = Some yv /\
    create_vectorizer_and_embeddings xs = Return (vectorizer, embeddings) /\
    TextVectorization_call vectorizer (map (fun s => [s]) (values xs)) = Return xt_vec /\
    TextVectorization_call vectorizer (map (fun s => [s]) (values xv)) = Return xv_vec /\
    let arch := bilstm_architecture (length (get_vocabulary vectorizer)) embeddings in
    let m0 := {| architecture := arch; weights := initial_weights arch;
                 compiled := Some signal_1_compile |} in
    train arch signal_1_compile (initial_weights arch)
          (keras.arrays xt_vec (values ys)) (Some 32%Z) 15%Z
          (Some (keras.arrays xv_vec (values yv))) = Return (w, h) /\
    t = [Called "create_vectorizer_and_embeddings";
         Called "TextVectorization.__call__"; Called "TextVectorization.__call__";
         Fit m0 (keras.arrays xt_vec (values ys)) (Some 32%Z) 15%Z
             (Some (keras.arrays xv_vec (values yv)));
         Displayed (out_history h)] /\
    ns' = bind_model (bind_vectorized ns xt_vec xv_vec (values ys) (values yv))
                     {| architecture := arch; weights := w;
                        compiled := Some signal_1_compile |}.
Proof.
  unfold cell_9. intros Hc. completed.
  subst.
  match goal with
  | Hg : keras.chain _ (bilstm_layers _ _) = Return _ |- _ =>
      rewrite bilstm_graph in Hg; inversion Hg; clear Hg
  end.
  subst. simpl in *.
  match goal with E : Some _ = Some _ |- _ => inversion E; clear E end. subst.
  match goal with
  | Hv : create_vectorizer_and_embeddings _ = Return ?ve |- _ => destruct ve as [vz em]
  end.
  simpl in *.
  do 10 eexists. cbv zeta.
  repeat (split; [eassumption|]).
  split; [|reflexivity]. reflexivity.
Qed.

Lemma cell_11_completed ns t ns' :
  cell_11 ns = (t, Return ns') ->
  exists xs ys xv yv tok train val,
    x_train ns = Some xs /\ y_train ns = Some ys /\
    x_val ns = Some xv /\ y_val ns = Some yv /\
    BertTokenizer_from_pretrained "bert-base-cased" = Return tok /\
    convert_data tok xs ys = Return train /\
    convert_data tok xv yv = Return val /\
    t = [Called "BertTokenizer.from_pretrained"; Called "convert_data";
         Called "convert_data"] /\
    ns' = bind_bert ns 16%Z tok (Dataset_batch train 16%Z) (Dataset_batch val 16%Z).
Proof.
  unfold cell_11. intros Hc. completed. subst. simpl.
  do 7 eexists.
  repeat (split; [eassumption|]).
  split; reflexivity.
Qed.

Lemma cell_12_completed ns t ns' :
  cell_12 ns = (t, Return ns') ->
  exists w0 tb bs vb w h,
    TFBertForSequenceClassification_from_pretrained "bert-base-cased" = Return w0 /\
    train_bert ns = Some tb /\ BATCH_SIZE ns = Some bs /\ val_bert ns = Some vb /\
    let m0 := {| architecture := bert_architecture; weights := w0;
                 compiled := Some bert_compile |} in
    train bert_architecture bert_compile w0 (keras.dataset tb) (Some bs) 2%Z
          (Some (keras.dataset vb)) = Return (w, h) /\
    t = [Called "TFBertForSequenceClassification.from_pretrained";
         Fit m0 (keras.dataset tb) (Some bs) 2%Z (Some (keras.dataset vb));
         Displayed (out_history h)] /\
    ns' = bind_model ns {| architecture := bert_architecture; weights := w;
                           compiled := Some bert_compile |}.
Proof.
  unfold cell_12. intros Hc. completed. subst. simpl in *.
  match goal with E : Some _ = Some _ |- _ => inversion E; clear E end. subst.
  do 6 eexists. cbv zeta.
  repeat (split; [eassumption|]).
  split; [|reflexivity]. reflexivity.
Qed.


End Experiments.

(** C1: the task is reduced from three classes to two.  If the records the
    loader returned carry labels among 0, 1, 2, then once the setup, display
    and split cells have completed every label of [y_train] and [y_val] is 0
    or 1 (and every sentence of [x_train] and [x_val] is present); and the
    model either cell of Signal 1 leaves behind ends in [Dense(2, softmax)]
    and predicts exactly 2 classes. *)
Theorem task_reduced_to_binary `{Backend} :
  (forall ns t ns' records,
      read_finphrase "data/Sentences_66Agree.txt" = Return records ->
      three_class_records records = true ->
      run setup_and_split ns = (t, Return ns') ->
      binary_split ns') /\
  (forall ns t ns', cell_8 ns = (t, Return ns') -> binary_head ns') /\
  (forall ns t ns', cell_9 ns = (t, Return ns') -> binary_head ns').
Proof.
  split; [|split].
  - intros ns t ns' records Hread H3 Hr.
    apply run_setup_and_split in Hr.
    destruct Hr as (t1 & ns1 & t2 & t3 & H4 & H5 & H6 & Et).
    pose proof (setup_rows_are_records _ H4) as (records' & d & Hread' & Hd & Hrows).
    assert (records' = records) by congruence. subst records'.
    pose proof (cell_6_completed _ H6) as (d0 & Hd0 & Ens').
    assert (d0 = d) by congruence. subst d0. cbv zeta in Ens'.
    remember (Z.to_nat train_split_idx) as n eqn:En. clear En.
    assert (Hlab : Forall (fun r => labelled_with [0; 1; 2]%Z (label r)) d).
    { apply Forall_forall. intros r Hr. rewrite Forall_forall in Hrows.
      destruct (Hrows r Hr) as [Hin Hna].
      unfold three_class_records in H3. rewrite forallb_forall in H3.
      specialize (H3 _ Hin). unfold content in H3. simpl in H3.
      unfold notna in Hna.
      destruct (sentence r); [|discriminate].
      destruct (label r) as [z|]; [|discriminate].
      exists z. split; [reflexivity|].
      repeat rewrite orb_true_iff in H3. repeat rewrite Z.eqb_eq in H3.
      destruct H3 as [?|[?|[?|?]]]; subst; simpl; auto; discriminate. }
    assert (Hsent : Forall (fun r => sentence r <> None) (where_label_ne 2 d)).
    { apply Forall_forall. intros r Hr. unfold where_label_ne in Hr.
      apply filter_In in Hr. destruct Hr as [Hr _].
      rewrite Forall_forall in Hrows. destruct (Hrows r Hr) as [_ Hna].
      unfold notna in Hna. destruct (sentence r); [discriminate|simpl in Hna; discriminate]. }
    apply filtered_labels_binary in Hlab.
    destruct (Forall_split_parts n Hlab) as [Ht Hv].
    destruct (Forall_split_parts n Hsent) as [Hst Hsv].
    unfold binary_split. subst ns'. simpl.
    do 4 eexists. repeat (split; [reflexivity|]).
    unfold col_label, col_sentence. rewrite !Forall_map. simpl. auto.
  - intros ns t ns' H8.
    pose proof (cell_8_completed _ H8)
      as (xs & ys & xv & yv & tfvect & sel & xt & xvs & w & h & Hc).
    cbv zeta in Hc. decompose [and] Hc. subst ns'.
    eexists. split; [reflexivity|]. split; reflexivity.
  - intros ns t ns' H9.
    pose proof (cell_9_completed _ H9)
      as (xs & ys & xv & yv & vz & em & xt & xvs & w & h & Hc).
    cbv zeta in Hc. decompose [and] Hc. subst ns'.
    eexists. split; [reflexivity|]. split; reflexivity.
Qed.

Lemma task_reduced_to_binary_witness :
  exists t ns' records,
    @read_finphrase Small.backend "data/Sentences_66Agree.txt" = Return records /\
    three_class_records records = true /\
    @run Small.backend setup_and_split (@fresh_kernel Small.backend 3) = (t, Return ns') /\
    @binary_split Small.backend ns'.
Proof.
  eexists. eexists. eexists.
  split; [vm_compute; reflexivity|].
  split; [vm_compute; reflexivity|].
  split; [vm_compute; reflexivity|].
  eapply (proj1 (@task_reduced_to_binary Small.backend) (@fresh_kernel Small.backend 3)).
  - vm_compute. reflexivity.
  - vm_compute. reflexivity.
  - vm_compute. reflexivity.
Defined.

(** C6: the labels at load time.  With the loader modelled from the spec, when
    the setup cell completes every row of [data] has a label among 0, 1, 2, and
    that label is the code of the polarity the file gives the row's sentence:
    1 for positive, 0 for negative, 2 for neutral; the three codes are exactly
    the values 0, 1, 2. *)
Theorem labels_at_load_time `{Backend} (fs : mtl_helpers.phrase_files) ns t ns' :
  read_finphrase "data/Sentences_66Agree.txt"
  = mtl_helpers.read_finphrase fs "data/Sentences_66Agree.txt" ->
  cell_4 ns = (t, Return ns') ->
  three_class_frame fs ns' /\
  mtl_helpers.encode mtl_helpers.positive = 1%Z /\
  mtl_helpers.encode mtl_helpers.negative = 0%Z /\
  mtl_helpers.encode mtl_helpers.neutral = 2%Z /\
  (forall z, In z [0; 1; 2]%Z <-> exists p, mtl_helpers.encode p = z).
Proof.
  intros Hmodel H4. split; [|split; [|split; [|split]]]; try reflexivity.
  2:{ intros z. split.
      - intros [<-|[<-|[<-|[]]]];
          [exists mtl_helpers.negative|exists mtl_helpers.positive
          |exists mtl_helpers.neutral]; reflexivity.
      - intros [[| |] <-]; simpl; auto. }
  pose proof (setup_rows_are_records _ H4) as (records & d & Hread & Hd & Hrows).
  rewrite Hmodel in Hread. unfold mtl_helpers.read_finphrase in Hread.
  destruct (fs "data/Sentences_66Agree.txt") as [annotated|] eqn:Efs; [|discriminate].
  inversion Hread; subst records; clear Hread.
  assert (Hfrom : Forall (fun r => exists s p,
                             In (s, p) annotated /\ sentence r = Some s /\
                             label r = Some (mtl_helpers.encode p)) d).
  { apply Forall_forall. intros r Hr. rewrite Forall_forall in Hrows.
    destruct (Hrows r Hr) as [Hin _]. apply in_map_iff in Hin.
    destruct Hin as ([s p] & Ec & Hin). unfold content in Ec. inversion Ec.
    exists s, p. auto. }
  exists annotated, d. split; [exact Efs|]. split; [exact Hd|].
  split; [|exact Hfrom].
  eapply Forall_impl; [|exact Hfrom]. intros r (s & p & _ & _ & El).
  exists (mtl_helpers.encode p). split; [exact El|].
  destruct p; simpl; auto.
Qed.

Lemma labels_at_load_time_witness :
  exists t ns',
    @cell_4 Small.backend (@fresh_kernel Small.backend 3) = (t, Return ns') /\
    @three_class_frame Small.backend Small.files ns'.
Proof.
  eexists. eexists. split; [vm_compute; reflexivity|].
  refine (proj1 (@labels_at_load_time Small.backend Small.files
                   (@fresh_kernel Small.backend 3) _ _ eq_refl _)).
  vm_compute. reflexivity.
Defined.

(** ** Runs that differ only in what the kernel held before *)

Section Determinism.
Context `{Backend}.

Lemma bind_assoc {A B C} (m : M A) (f : A -> M B) (g : B -> M C) :
  bind (bind m f) g = bind m (fun a => bind (f a) g).
Proof.
  unfold bind. destruct m as [t [a|e]]; [|reflexivity].
  destruct (f a) as [t1 [b|e]]; [|reflexivity].
  destruct (g b) as [t2 r]. rewrite app_assoc. reflexivity.
Qed.

Lemma bind_ret_l {A B} (a : A) (f : A -> M B) : bind (ret a) f = f a.
Proof. unfold bind, ret. destruct (f a). reflexivity. Qed.

Lemma same_run_bind {A} (m : M A) (f g : A -> M namespace) :
  (forall a, same_run (f a) (g a)) -> same_run (bind m f) (bind m g).
Proof.
  intros Hfg. destruct m as [t [a|e]]; [|split; reflexivity].
  specialize (Hfg a). unfold same_run, trace, outcome, bind in *.
  destruct (f a) as [t1 r1], (g a) as [t2 r2]. simpl in *.
  destruct Hfg as [-> Hr]. split; [reflexivity|exact Hr].
Qed.

Lemma same_run_ret (a b : namespace) : same_split a b -> same_run (ret a) (ret b).
Proof. intros Hab. split; [reflexivity|exact Hab]. Qed.

End Determinism.

(** C9: the data pipeline is deterministic.  Two runs of the setup, display
    and split cells over the same backend (the same file contents) make the
    same calls and end alike, with the same exception or with identical
    [data], [x_train], [y_train], [x_val], [y_val], whatever the two kernels
    held before and whatever the state of numpy's module-level generator: the
    shuffle draws from a generator seeded with 42. *)
Theorem split_is_deterministic `{Backend} (ns1 ns2 : namespace) :
  same_run (run setup_and_split ns1) (run setup_and_split ns2).
Proof.
  unfold setup_and_split. cbn [run]. unfold cell_4.
  rewrite !bind_assoc. apply same_run_bind. intros records. cbv beta zeta.
  rewrite !bind_assoc.
  change (sample_frac1 (Some 42%Z) (np_random ns2))
    with (sample_frac1 (Some 42%Z) (np_random ns1)).
  apply same_run_bind. intros shuffled.
  rewrite !bind_ret_l. unfold cell_5.
  rewrite !bind_assoc. apply same_run_bind. intros d.
  rewrite !bind_assoc.
  change (sample 6 (Some 32%Z) (np_random (bind_data ns2 (reset_index shuffled))))
    with (sample 6 (Some 32%Z) (np_random (bind_data ns1 (reset_index shuffled)))).
  apply same_run_bind. intros shown.
  rewrite !bind_assoc. apply same_run_bind. intros _.
  rewrite !bind_ret_l. unfold cell_6.
  rewrite !bind_assoc. apply same_run_bind. intros d'. cbv beta zeta.
  rewrite !bind_ret_l.
  apply same_run_ret. repeat split.
Qed.

(** ** Feature selection *)

Section Selection.
Context `{Backend}.




End Selection.


(** ** The validation split across the experiments *)

Section Frame.
Context `{Backend}.


End Frame.

Section SharedSplit.
Context `{Backend}.


End SharedSplit.


(** C7: the BERT experiment is fine-tuning.  When the cell completes, its
    trace is: the call to [from_pretrained('bert-base-cased')], then one fit of
    2 epochs on a model whose weights are the ones that call returned, then
    the metrics; and in every run of the cell, completed or not, a fit only
    ever happens after that call and on those weights, never on freshly
    initialised ones. *)
Theorem bert_is_fine_tuned `{Backend} :
  (forall ns t ns', cell_12 ns = (t, Return ns') -> fine_tuned_from_checkpoint ns' t) /\
  (forall ns e, In e (trace (cell_12 ns)) ->
                fit_follows_from_pretrained (trace (cell_12 ns)) e).
Proof.
  split.
  - intros ns t ns' H12. apply cell_12_completed in H12.
    destruct H12 as (w0 & tb & bs & vb & w & h & S12). cbv zeta in S12.
    destruct S12 as (Hpre & Htb & Hbs & Hvb & Htrain & -> & ->).
    exists w0, (keras.dataset tb), (Some bs), (keras.dataset vb), w, h.
    simpl. auto.
  - intros ns e. unfold cell_12, trace.
    destruct (TFBertForSequenceClassification_from_pretrained "bert-base-cased")
      as [w0|ex] eqn:Hpre; simpl.
    2:{ intros [<-|[<-|[]]]; exact I. }
    destruct (train_bert ns) as [tb|]; simpl; [|intros [<-|[<-|[]]]; exact I].
    destruct (BATCH_SIZE ns) as [bs|]; simpl; [|intros [<-|[<-|[]]]; exact I].
    destruct (val_bert ns) as [vb|]; simpl; [|intros [<-|[<-|[]]]; exact I].
    unfold Model_fit. simpl.
    destruct (train _ _ _ _ _ _ _) as [[w h]|ex]; simpl.
    + intros [<-|[<-|[<-|[]]]]; simpl; try exact I.
      split; [reflexivity|]. split; [reflexivity|]. split; [exact Hpre|].
      eexists. split; [reflexivity|]. simpl. auto.
    + intros [<-|[<-|[<-|[]]]]; simpl; try exact I.
      split; [reflexivity|]. split; [reflexivity|]. split; [exact Hpre|].
      eexists. split; [reflexivity|]. simpl. auto.
Qed.

(** ** The whole notebook *)

Section WholeRun.
Context `{Backend}.





End WholeRun.

(** ** How many events a run can make *)

Section Bounded.
Context `{Backend}.











End Bounded.


Section CellBounds.
Context `{Backend}.










End CellBounds.


(** ** Exceptions *)

Section Exceptions.
Context `{Backend}.










End Exceptions.


Section CellExceptions.
Context `{Backend}.


End CellExceptions.


(** ** Which signals have an experiment *)

Section Signals.
Context `{Backend}.

Lemma section_signal_1 :
  section "# Signal 1: Traditional Supervision" notebook = [cell_8; cell_9].
Proof. reflexivity. Qed.

Lemma section_signal_2 :
  section (heading BERT_fine_tuning) notebook = [cell_11; cell_12].
Proof. reflexivity. Qed.

Lemma section_described_only s :
  In s described_only ->
  section (heading s) notebook = [empty_cell]
  \/ section (heading s) notebook = [empty_cell; empty_cell].
Proof.
  simpl. intros [<-|[<-|[<-|[<-|[<-|[]]]]]]; (left; reflexivity) || (right; reflexivity).
Qed.

Lemma run_signal_1 ns t ns' :
  run [cell_8; cell_9] ns = (t, Return ns') ->
  experiment tfidf_MLP t = true /\ experiment GloVe_BiLSTM t = true.
Proof.
  cbn [run]. intros Hr.
  apply bind_Return in Hr. destruct Hr as (t8 & n8 & r8 & H8 & Hr & ->).
  apply bind_Return in Hr. destruct Hr as (t9 & n9 & r9 & H9 & Hr & ->).
  apply ret_Return in Hr. destruct Hr as [-> ->].
  apply cell_8_completed in H8.
  destruct H8 as (xs & ys & xv & yv & tfvect & sel & xt & xvs & w & h & S8).
  cbv zeta in S8. destruct S8 as (_ & _ & _ & _ & _ & _ & _ & _ & _ & -> & _).
  apply cell_9_completed in H9.
  destruct H9 as (xs' & ys' & xv' & yv' & vz & em & xt' & xvs' & w' & h' & S9).
  cbv zeta in S9. destruct S9 as (_ & _ & _ & _ & _ & _ & _ & _ & -> & _).
  split; reflexivity.
Qed.

Lemma run_signal_2 ns t ns' :
  run [cell_11; cell_12] ns = (t, Return ns') -> experiment BERT_fine_tuning t = true.
Proof.
  cbn [run]. intros Hr.
  apply bind_Return in Hr. destruct Hr as (t11 & n11 & r11 & H11 & Hr & ->).
  apply bind_Return in Hr. destruct Hr as (t12 & n12 & r12 & H12 & Hr & ->).
  apply ret_Return in Hr. destruct Hr as [-> ->].
  apply cell_11_completed in H11.
  destruct H11 as (xs & ys & xv & yv & tok & tr & va & S11).
  destruct S11 as (_ & _ & _ & _ & _ & _ & _ & -> & _).
  apply cell_12_completed in H12.
  destruct H12 as (w0 & tb & bs & vb & w & h & S12).
  cbv zeta in S12. destruct S12 as (_ & _ & _ & _ & _ & -> & _).
  reflexivity.
Qed.

End Signals.

(** C2, as amended: three of the eight signals have an experiment.  Every
    completed run of the section of the tf-idf perceptron, of the GloVe BiLSTM
    and of BERT encodes data, fits a compiled model of that kind with
    validation data and prints the metrics of the training; the sections of
    the other five signals (external features, multitask learning, dataset
    slicing, data augmentation, ensembling) hold only code cells with an empty
    source, whose run calls nothing and changes nothing. *)
Theorem three_signals_have_experiments `{Backend} :
  demonstrated tfidf_MLP /\ demonstrated GloVe_BiLSTM /\
  demonstrated BERT_fine_tuning /\
  (forall s ns, In s described_only ->
                run (section (heading s) notebook) ns = ([], Return ns)).
Proof.
  split; [|split; [|split]].
  - intros ns t ns' Hr. simpl heading in Hr. rewrite section_signal_1 in Hr.
    exact (proj1 (run_signal_1 _ Hr)).
  - intros ns t ns' Hr. simpl heading in Hr. rewrite section_signal_1 in Hr.
    exact (proj2 (run_signal_1 _ Hr)).
  - intros ns t ns' Hr. rewrite section_signal_2 in Hr.
    exact (run_signal_2 _ Hr).
  - intros s ns Hs. destruct (@section_described_only _ s Hs) as [-> | ->]; reflexivity.
Qed.

(** C2, as stated, fails: the section of the external features is one empty
    code cell, and its run is no experiment. *)
Lemma external_features_have_no_experiment :
  ~ @every_signal_demonstrated Small.backend.
Proof.
  intros Hall.
  assert (Hin : In external_features all_signals) by (simpl; tauto).
  specialize (Hall external_features Hin
                   (@fresh_kernel Small.backend 3) [] (@fresh_kernel Small.backend 3)
                   eq_refl).
  discriminate Hall.
Qed.

(** ** The statements above on the small backend *)

Lemma three_signals_have_experiments_witness :
  exists t ns',
    @run Small.backend (section (heading BERT_fine_tuning) notebook) small_after_split
    = (t, Return ns') /\
    @experiment Small.backend BERT_fine_tuning t = true.
Proof.
  eexists. eexists. split; [vm_compute; reflexivity|].
  eapply (proj1 (proj2 (proj2 (@three_signals_have_experiments Small.backend)))
                small_after_split).
  vm_compute. reflexivity.
Defined.




Lemma bert_is_fine_tuned_witness :
  exists t ns',
    @cell_12 Small.backend small_after_tokenizing = (t, Return ns') /\
    @fine_tuned_from_checkpoint Small.backend ns' t.
Proof.
  eexists. eexists. split; [vm_compute; reflexivity|].
  eapply (proj1 (@bert_is_fine_tuned Small.backend) small_after_tokenizing).
  vm_compute. reflexivity.
Defined.


(** ** How many columns the selector keeps *)

Section SelectedWidth.
Context `{Backend}.








End SelectedWidth.


(** ** Small checks of the library models *)

Example slice_counts_from_the_end : slice (Some (-2)%Z) None [10; 20; 30; 40] = [30; 40].
Proof. reflexivity. Qed.

Example slice_clips_to_the_length : slice (Some 0%Z) (Some 1300%Z) [10; 20; 30] = [10; 20; 30].
Proof. reflexivity. Qed.

Example slice_past_the_end_is_empty : slice (Some 1300%Z) None [10; 20; 30] = [].
Proof. reflexivity. Qed.

Example mask_of_marks : sklearn.mask_of 4 [2; 0] = [true; false; true; false].
Proof. reflexivity. Qed.

Example dense_needs_a_defined_width :
  keras.compute_output_shape (keras.Dense 2 keras.softmax) [None]
  = Raise (ValueError "The last dimension of the inputs to Dense should be defined.").
Proof. reflexivity. Qed.

(** Without a seed the shuffle follows the module-level generator: two
    generator states give two orders. *)
Example unseeded_shuffle_depends_on_generator :
  let df := from_records [(Some "a", Some 0%Z); (Some "b", Some 1%Z); (Some "c", Some 1%Z)] in
  @sample_frac1 Small.rng None 0 df <> @sample_frac1 Small.rng None 1 df.
Proof. vm_compute. discriminate. Qed.

Example seeded_shuffle_ignores_generator :
  let df := from_records [(Some "a", Some 0%Z); (Some "b", Some 1%Z); (Some "c", Some 1%Z)] in
  @sample_frac1 Small.rng (Some 42%Z) 0 df = @sample_frac1 Small.rng (Some 42%Z) 1 df.
Proof. reflexivity. Qed.

(** On a phrase bank of 2000 sentences, a third of them neutral, the split
    leaves 1300 training rows and the remaining 34 for validation. *)
Example split_sizes_on_2000_sentences :
  match outcome (@run (Small.many 2000) setup_and_split (@fresh_kernel (Small.many 2000) 3)) with
  | Return ns =>
      (option_map (@length _) (x_train ns), option_map (@length _) (y_train ns),
       option_map (@length _) (x_val ns), option_map (@length _) (y_val ns))
  | Raise _ => (None, None, None, None)
  end = (Some 1300, Some 1300, Some 34, Some 34).
Proof. vm_compute. reflexivity. Qed.

(* ================================================================== *)
(** * Further properties of the cells *)

(** ** The shuffle *)

Section Shuffle.
Context `{Backend}.


Lemma take_in_range locs : forall df,
  (forall i, In i locs -> i < length df) ->
  exists rs, take locs df = Return rs /\ map Some rs = map (nth_error df) locs.
Proof.
  induction locs as [|i locs IH]; intros df Hr; simpl.
  - exists []. auto.
  - destruct (nth_error df i) as [r|] eqn:En.
    + destruct (IH df) as (rs & -> & Em); [intros j Hj; apply Hr; now right|].
      exists (r :: rs). split; [reflexivity|]. simpl. rewrite Em. reflexivity.
    + apply nth_error_None in En. specialize (Hr i (or_introl eq_refl)). lia.
Qed.

Lemma nth_error_all {A} (l : list A) :
  map (nth_error l) (seq 0 (length l)) = map Some l.
Proof.
  induction l as [|a l IH]; simpl; [reflexivity|].
  f_equal. rewrite <- seq_shift, map_map. simpl. exact IH.
Qed.

Lemma map_Some_inj {A} (l1 l2 : list A) : map Some l1 = map Some l2 -> l1 = l2.
Proof.
  revert l2. induction l1 as [|a l1 IH]; intros [|b l2] E; simpl in E;
    try discriminate; [reflexivity|].
  inversion E; subst. f_equal. auto.
Qed.

(** Taking the rows at a permutation of all positions succeeds and permutes the frame. *)
Lemma take_permutation locs df :
  Permutation locs (seq 0 (length df)) ->
  exists rs, take locs df = Return rs /\ Permutation rs df.
Proof.
  intros Hp.
  destruct (take_in_range locs df) as (rs & Ht & Em).
  { intros i Hi. apply (Permutation_in _ Hp) in Hi. apply in_seq in Hi. lia. }
  exists rs. split; [exact Ht|].
  assert (Hps : Permutation (map Some rs) (map Some df)).
  { rewrite Em, <- nth_error_all. apply Permutation_map. exact Hp. }
  apply Permutation_sym, Permutation_map_inv in Hps.
  destruct Hps as (l3 & E3 & Hp3). apply map_Some_inj in E3. subst l3.
  exact Hp3.
Qed.

Lemma content_from_records records : map content (from_records records) = records.
Proof.
  unfold from_records. rewrite map_map. unfold content. simpl.
  generalize 0. induction records as [|[s l] records IH]; intros n; simpl; [reflexivity|].
  f_equal. apply IH.
Qed.

Lemma notna_complete r : notna r = complete (content r).
Proof. unfold notna, complete, content. destruct (sentence r), (label r); reflexivity. Qed.

Lemma content_dropna df : map content (dropna df) = filter complete (map content df).
Proof.
  unfold dropna. induction df as [|r df IH]; [reflexivity|].
  cbn [filter map]. rewrite <- notna_complete.
  destruct (notna r); cbn [map]; rewrite IH; reflexivity.
Qed.

End Shuffle.

(** The setup cell loses and invents no record.  When the loader returns and
    the generator seeded with 42 hands out a genuine permutation, the cell
    completes, and [data] holds exactly the records with no missing cell, in
    some order, renumbered [0 .. n-1]. *)
Theorem setup_keeps_every_complete_record `{Backend} ns records :
  read_finphrase "data/Sentences_66Agree.txt" = Return records ->
  valid_permutation (RandomState_seed 42%Z) (length (dropna (from_records records))) ->
  exists d,
    cell_4 ns = ([Called "read_finphrase"; Called "DataFrame.sample"],
                 Return (bind_data ns d)) /\
    index d = seq 0 (length (filter complete records)) /\
    Permutation (map content d) (filter complete records).
Proof.
  intros Hread Hperm. unfold valid_permutation in Hperm.
  set (D := dropna (from_records records)) in *.
  destruct (@take_permutation _ D Hperm) as (rs & Ht & Hp).
  assert (HD : map content D = filter complete records)
    by (unfold D; rewrite content_dropna, content_from_records; reflexivity).
  assert (Hs : sample_frac1 (Some 42%Z) (np_random ns) D = Return rs).
  { unfold sample_frac1, sample, random_state. rewrite Nat.ltb_irrefl.
    rewrite firstn_all2; [exact Ht|].
    rewrite (Permutation_length Hperm), length_seq. lia. }
  exists (reset_index rs). split; [|split].
  - unfold cell_4. rewrite Hread. cbv beta iota zeta delta [call bind].
    fold D. rewrite Hs. reflexivity.
  - rewrite index_reset_index. f_equal.
    rewrite (Permutation_length Hp), <- HD, length_map. reflexivity.
  - rewrite content_reset_index, <- HD. apply Permutation_map. exact Hp.
Qed.

Lemma setup_keeps_every_complete_record_witness :
  exists d,
    @cell_4 Small.backend small_fresh
    = ([@Called Small.backend "read_finphrase"; @Called Small.backend "DataFrame.sample"],
       Return (@bind_data Small.backend small_fresh d)) /\
    index d = seq 0 7.
Proof.
  destruct (@setup_keeps_every_complete_record Small.backend small_fresh
              (map (fun sp => (Some (fst sp), Some (mtl_helpers.encode (snd sp))))
                   [ ("Profit rose .", mtl_helpers.positive);
                     ("Sales fell .", mtl_helpers.negative);
                     ("The office is in Helsinki .", mtl_helpers.neutral);
                     ("Orders grew by 5 % .", mtl_helpers.positive);
                     ("The company cut 22 jobs .", mtl_helpers.negative);
                     ("The meeting is on Monday .", mtl_helpers.neutral);
                     ("Net sales increased .", mtl_helpers.positive) ]))
    as (d & Hc & Hi & _).
  - reflexivity.
  - apply Permutation_sym. exact (Permutation_cons_append [1; 2; 3; 4; 5; 6] 0).
  - exists d. split; [exact Hc|exact Hi].
Defined.

(** ** The split cell on any frame *)

Section SplitCell.
Context `{Backend}.

(** The split cell never fails once [data] is bound, and calls nothing. *)
Lemma cell_6_runs ns d0 :
  data ns = Some d0 ->
  let d := where_label_ne 2 d0 in
  let n := Z.to_nat train_split_idx in
  cell_6 ns
  = ([], Return (bind_split (bind_data ns d)
                            (col_sentence (firstn n d)) (col_label (firstn n d))
                            (col_sentence (skipn n d)) (col_label (skipn n d)))).
Proof.
  intros Hd. cbv zeta. unfold cell_6. rewrite Hd.
  cbv beta iota zeta delta [lookup bind ret getitem_slice].
  rewrite slice_prefix by (unfold train_split_idx; lia).
  rewrite slice_suffix by (unfold train_split_idx; lia).
  reflexivity.
Qed.

Lemma where_label_ne_idempotent v d : where_label_ne v (where_label_ne v d) = where_label_ne v d.
Proof.
  unfold where_label_ne. induction d as [|r d IH]; simpl; [reflexivity|].
  destruct (ne (label r) v) eqn:E; simpl; rewrite ?E, IH; reflexivity.
Qed.




End SplitCell.

(** The sizes of the split.  Once [data] is bound the split cell completes
    without a call; of the [n] rows whose label is not 2 the first
    [min(1300, n)] go to training and the other [n - 1300] to validation, so
    that a frame with at most 1300 such rows leaves the validation split
    empty; sentences and labels come in equal numbers on both sides. *)
Theorem split_sizes `{Backend} ns d0 :
  data ns = Some d0 ->
  exists ns' xt yt xv yv,
    cell_6 ns = ([], Return ns') /\
    x_train ns' = Some xt /\ y_train ns' = Some yt /\
    x_val ns' = Some xv /\ y_val ns' = Some yv /\
    let n := length (where_label_ne 2 d0) in
    length xt = Nat.min 1300 n /\ length yt = Nat.min 1300 n /\
    length xv = n - 1300 /\ length yv = n - 1300 /\
    length xt + length xv = n /\
    (n <= 1300 -> xv = [] /\ yv = []).
Proof.
  intros Hd. pose proof (cell_6_runs ns Hd) as Hc. cbv zeta in Hc.
  change (Z.to_nat train_split_idx) with 1300 in Hc.
  remember 1300 as k eqn:Ek. clear Ek.
  do 5 eexists. split; [exact Hc|]. simpl.
  do 4 (split; [reflexivity|]).
  unfold col_sentence, col_label. rewrite !length_map, length_firstn, length_skipn.
  repeat split; try lia.
  - rewrite skipn_all2 by lia. reflexivity.
  - rewrite skipn_all2 by lia. reflexivity.
Qed.

Lemma split_sizes_witness :
  exists ns' xt xv,
    @cell_6 Small.backend (@bind_data Small.backend small_fresh
                             (from_records [(Some "a", Some 1%Z); (Some "b", Some 2%Z);
                                            (Some "c", Some 0%Z)]))
    = ([], Return ns') /\
    x_train ns' = Some xt /\ x_val ns' = Some xv /\ length xt = 2 /\ length xv = 0.
Proof.
  destruct (@split_sizes Small.backend
              (@bind_data Small.backend small_fresh
                 (from_records [(Some "a", Some 1%Z); (Some "b", Some 2%Z);
                                (Some "c", Some 0%Z)]))
              _ eq_refl)
    as (ns' & xt & yt & xv & yv & Hc & Hxt & Hyt & Hxv & Hyv & Hn).
  cbv zeta in Hn. destruct Hn as (Ht & _ & Hv & _).
  exists ns', xt, xv. repeat split; assumption.
Defined.

(** Running the split cell again changes nothing: the rows of label 2 are
    already gone and the slices fall on the same positions. *)
Theorem split_cell_is_idempotent `{Backend} ns t ns' :
  cell_6 ns = (t, Return ns') -> cell_6 ns' = ([], Return ns').
Proof.
  intros Hc. apply cell_6_completed in Hc. destruct Hc as (d0 & Hd0 & Ens').
  cbv zeta in Ens'.
  assert (Hd' : data ns' = Some (where_label_ne 2 d0)) by (subst ns'; reflexivity).
  rewrite (cell_6_runs ns' Hd'). cbv zeta. rewrite where_label_ne_idempotent.
  subst ns'. reflexivity.
Qed.

Lemma split_cell_is_idempotent_witness :
  @cell_6 Small.backend small_after_split = ([], Return small_after_split).
Proof.
  apply (@split_cell_is_idempotent Small.backend
           (match outcome (@run Small.backend [cell_4; cell_5] small_fresh) with
            | Return ns => ns
            | Raise _ => small_fresh
            end) []).
  vm_compute. reflexivity.
Defined.



Example split_index_has_gaps :
  option_map (@Series_index _) (x_train small_after_split) = Some [0; 2; 3; 5; 6].
Proof. vm_compute. reflexivity. Qed.

(** ** The cell that shows a sample *)

Section Display.
Context `{Backend}.


End Display.



(** ** Fits, in every run *)

Section Fits.
Context `{Backend}.

Lemma fits_well_ret {A} (a : A) : fits_well (ret a).
Proof. constructor. Qed.

Lemma fits_well_raise {A} e : fits_well (@raise _ A e).
Proof. repeat constructor. Qed.

Lemma fits_well_call {A} f (r : result A) : fits_well (call f r).
Proof. destruct r; repeat constructor. Qed.

Lemma fits_well_lookup {A} name (v : option A) : fits_well (lookup name v).
Proof. destruct v; repeat constructor. Qed.

Lemma fits_well_lift {A} (r : result A) : fits_well (lift r).
Proof. destruct r; repeat constructor. Qed.

Lemma fits_well_display o : fits_well (display o).
Proof. repeat constructor. Qed.

Lemma fits_well_bind {A B} (m : M A) (f : A -> M B) :
  fits_well m -> (forall a, fits_well (f a)) -> fits_well (bind m f).
Proof.
  unfold fits_well, trace. destruct m as [t [a|e]]; simpl; [|auto].
  intros Hm Hf. specialize (Hf a). destruct (f a) as [t' r]. simpl in *.
  apply Forall_app. auto.
Qed.

Lemma fits_well_capture {A} (m : M A) : fits_well m -> fits_well (capture m).
Proof.
  unfold fits_well, capture, trace. simpl. intros Hm.
  apply Forall_forall. intros e He. apply filter_In in He.
  rewrite Forall_forall in Hm. apply Hm. tauto.
Qed.

Lemma fits_well_Model_fit m x b epochs v :
  b <> None -> (0 < epochs)%Z -> v <> None -> fits_well (Model_fit m x b epochs v).
Proof.
  intros Hb He Hv. unfold Model_fit.
  destruct (compiled m) as [c|] eqn:Ec; [|apply fits_well_raise].
  apply fits_well_bind.
  - constructor; [|constructor]. simpl. rewrite Ec. repeat split; auto. discriminate.
  - intros _. destruct (train _ _ _ _ _ _ _) as [[w h]|ex]; [|apply fits_well_raise].
    apply fits_well_bind; [apply fits_well_display|]. intros _. apply fits_well_ret.
Qed.

End Fits.

(** Checks every fit of a cell, call by call. *)
Ltac check_fits :=
  repeat first
    [ apply fits_well_ret | apply fits_well_raise | apply fits_well_call
    | apply fits_well_lookup | apply fits_well_lift | apply fits_well_display
    | apply fits_well_Model_fit; [discriminate | lia | discriminate]
    | apply fits_well_capture
    | apply fits_well_bind; [|intro]
    | progress cbv zeta
    | progress unfold with_device ].

(** No model is ever fitted half-configured.  In every run of every code
    cell, completed or not, each fit is on a compiled model, with a batch
    size, a positive number of epochs and validation data. *)
Theorem every_fit_is_configured `{Backend} c ns :
  In c (code_cells notebook) -> Forall well_formed_fit (trace (c ns)).
Proof.
  simpl. intros Hc. change (fits_well (c ns)).
  repeat (destruct Hc as [<-|Hc];
          [ first [ unfold cell_4 | unfold cell_5 | unfold cell_6 | unfold cell_8
                  | unfold cell_9 | unfold cell_11 | unfold cell_12
                  | unfold empty_cell ]; check_fits |]).
  contradiction.
Qed.

Lemma every_fit_is_configured_witness :
  Forall (@well_formed_fit Small.backend) (trace (@cell_12 Small.backend small_after_tokenizing)).
Proof.
  apply (@every_fit_is_configured Small.backend). simpl. tauto.
Defined.



(** ** The fitted selector *)

Section Selector.
Context `{Backend}.








End Selector.



(** ** Cells that cannot fail on their own *)

Section Runs.
Context `{Backend}.










End Runs.



(** ** What a cell reads *)

Section Reads.
Context `{Backend}.




End Reads.




(** ** Cells run before the cells they depend on *)



(** ** Labels reaching the fits *)

Section FitLabels.
Context `{Backend}.


End FitLabels.


